(** * gonaturalist: the observations client (observations.go)

    A shallow embedding of [observations.go]: the option structures, the
    query built by [GetObservations], the JSON bodies built by
    [AddObservation] and [UpdateObservation], the decoding of the summary
    observation, and the status handling of the mutating operations.

    Go's standard library is modelled as far as the file uses it:
    [strconv.Itoa], the [%v] rendering of a [float64], [time.Time.Format],
    [url.Values] with [Set] and [Encode], and the struct-tag driven
    [encoding/json] marshaller and decoder. *)

From Stdlib Require Import ZArith String Ascii List Bool Lia DecimalString.
From Stdlib Require Import Floats DecimalPos DecimalN DecimalFacts.
From stdpp Require Import base option list gmap strings sorting.

Set Warnings "-inexact-float,-register-all".

Local Open Scope Z_scope.

(** ** Go values used by the file *)

(** [float64] is IEEE 754 binary64. *)
Abbreviation float64 := PrimFloat.float.

(** [strconv.Itoa]: the decimal rendering of an [int]. *)
Module strconv.

Definition Itoa (i : Z) : string := NilZero.string_of_int (Z.to_int i).

(** The digits of a non-negative integer, most significant first. *)
Definition digitsOf (n : Z) : string := NilZero.string_of_uint (N.to_uint (Z.to_N n)).

(** [decimalSlice] of ftoa.go: the value is [0.d1d2...dn * 10^dp]. *)
Record decimalSlice := { d : string; dp : Z }.

Definition nd (digs : decimalSlice) : Z := Z.of_nat (String.length (d digs)).

(** The float is [m * 2^e].  Everything is counted in units of
    [2^(e-2)]: the value is [4m], the upper bound of its rounding
    interval [4m+2], the lower bound [4m-2], or [4m-1] when [m] is the
    smallest normalised mantissa and the predecessor lies in the binade
    below ([roundShortest]: [mantlo], [explo]). *)
Definition lowerUnits (m e : Z) : Z :=
  if (m =? 2 ^ 52) && (-1074 <? e) then 4 * m - 1 else 4 * m - 2.

(** The scale of decimal position [k] in units of [2^(e-2)]: [x] units
    are [(x * scaleNum e k) / scaleDen e k] times [10^k]. *)
Definition scaleNum (e k : Z) : Z := 2 ^ Z.max (e - 2) 0 * 10 ^ Z.max (- k) 0.
Definition scaleDen (e k : Z) : Z := 2 ^ Z.max (- (e - 2)) 0 * 10 ^ Z.max k 0.

(** One step of the digit walk of [roundShortest] at decimal position
    [k].  [okdown]: truncating stays above the lower bound; [okup]:
    rounding up stays below the upper bound; the bounds themselves are
    allowed when the mantissa is even.  When both are allowed the nearer
    one is taken, the even one on a tie. *)
Definition shortestAt (m e k : Z) : option Z :=
  let num := scaleNum e k in
  let den := scaleDen e k in
  let F := 4 * m * num in
  let U := (4 * m + 2) * num in
  let L := lowerUnits m e * num in
  let inclusive := Z.even m in
  let down := F / den in
  let up := down + 1 in
  let okdown := (L <? down * den) || (inclusive && (L =? down * den)) in
  let okup := (up * den <? U) || (inclusive && (up * den =? U)) in
  let rest := 2 * (F - down * den) in
  match okdown, okup with
  | true, true =>
      if rest <? den then Some down
      else if den <? rest then Some up
      else if Z.even down then Some down else Some up
  | true, false => Some down
  | false, true => Some up
  | false, false => None
  end.

Fixpoint shortestFrom (fuel : nat) (m e k : Z) : Z * Z :=
  match fuel with
  | O => (0, 0)
  | S fuel' =>
      match shortestAt m e k with
      | Some digits => (digits, k)
      | None => shortestFrom fuel' m e (k - 1)
      end
  end.

(** The walk starts at a decimal position above the leading digit of
    the upper bound and needs at most seventeen digits. *)
Definition shortest (m e : Z) : decimalSlice :=
  let k0 := (Z.log2 m + e + 3) * 30103 / 100000 + 2 in
  let '(digits, k) := shortestFrom 64 m e k0 in
  let ds := digitsOf digits in
  {| d := ds; dp := Z.of_nat (String.length ds) + k |}.

Fixpoint zeros (n : nat) : string :=
  match n with O => EmptyString | S n' => String "0" (zeros n') end.

Definition take (n : Z) (s : string) : string := String.substring 0 (Z.to_nat n) s.
Definition drop (n : Z) (s : string) : string :=
  String.substring (Z.to_nat n) (String.length s - Z.to_nat n) s.

(** [%e]: [d.ddde±dd], the exponent with at least two digits when
    [pad] is set. *)
Definition fmtE (pad : bool) (neg : bool) (digs : decimalSlice) : string :=
  let exp := dp digs - 1 in
  let mant :=
    if 1 <? nd digs then take 1 (d digs) +:+ "." +:+ drop 1 (d digs) else d digs in
  let e := digitsOf (Z.abs exp) in
  (if neg then "-" else "") +:+ mant +:+ "e" +:+ (if exp <? 0 then "-" else "+")
    +:+ (if pad && (Z.abs exp <? 10) then "0" +:+ e else e).

(** [%f] with as many fraction digits as the digits need. *)
Definition fmtF (neg : bool) (digs : decimalSlice) : string :=
  let int :=
    if 0 <? dp digs
    then take (dp digs) (d digs) +:+ zeros (Z.to_nat (dp digs - nd digs))
    else "0" in
  let frac :=
    if dp digs <? nd digs
    then "." +:+ zeros (Z.to_nat (- dp digs)) +:+ drop (dp digs) (d digs)
    else "" in
  (if neg then "-" else "") +:+ int +:+ frac.

(** [strconv.FormatFloat(f, 'g', -1, 64)]: shortest digits, [%e] when
    the exponent is below -4 or at least [eprec]; [eprec] is 6 for the
    shortest form. *)
Definition eprec : Z := 6.

Definition FormatFloat_g (f : float64) : string :=
  match Prim2SF f with
  | S754_nan => "NaN"
  | S754_infinity neg => if neg then "-Inf" else "+Inf"
  | S754_zero neg => if neg then "-0" else "0"
  | S754_finite neg m e =>
      let digs := shortest (Z.pos m) e in
      let exp := dp digs - 1 in
      if (exp <? -4) || (eprec <=? exp) then fmtE true neg digs else fmtF neg digs
  end.

End strconv.

(** [fmt.Sprintf("%v", f)] for a [float64] is [%g] with the shortest
    precision; infinities keep their sign, NaN has none. *)
Module fmt.

Definition Sprintf_v (f : float64) : string := strconv.FormatFloat_g f.

(** [fmt.Sprintf(format, args...)] for a format whose verbs are all
    [%d]: each takes the next argument in decimal. *)
Fixpoint Sprintf_d (format : string) (args : list Z) : string :=
  match format with
  | EmptyString => EmptyString
  | String c rest =>
      match rest, args with
      | String c' rest', a :: args' =>
          if Ascii.eqb c "%" && Ascii.eqb c' "d"
          then strconv.Itoa a +:+ Sprintf_d rest' args'
          else String c (Sprintf_d rest args)
      | _, _ => String c (Sprintf_d rest args)
      end
  end.

End fmt.

(** ** [time.Time]

    A time as its layout fields show it: the civil date and clock in the
    time's own location, and that location's offset east of UTC in
    seconds. *)
Module time.

Record Time := {
  Year : Z; Month : Z; Day : Z;
  Hour : Z; Minute : Z; Second : Z; Nanosecond : Z;
  Offset : Z
}.

(** The zero [Time]: January 1, year 1, 00:00:00 UTC. *)
Definition zero : Time :=
  {| Year := 1; Month := 1; Day := 1; Hour := 0; Minute := 0; Second := 0;
     Nanosecond := 0; Offset := 0 |}.

(** [appendInt]: decimal, zero-padded on the left to [width]. *)
Definition appendInt (x : Z) (width : nat) : string :=
  let ds := strconv.digitsOf (Z.abs x) in
  (if x <? 0 then "-" else "") +:+ strconv.zeros (width - String.length ds) +:+ ds.

(** Layout [2006-01-02]. *)
Definition formatDate (t : Time) : string :=
  appendInt (Year t) 4 +:+ "-" +:+ appendInt (Month t) 2 +:+ "-" +:+ appendInt (Day t) 2.

Definition formatClock (t : Time) : string :=
  appendInt (Hour t) 2 +:+ ":" +:+ appendInt (Minute t) 2 +:+ ":" +:+ appendInt (Second t) 2.

(** Layout element [Z07:00]. *)
Definition formatZone (t : Time) : string :=
  if Offset t =? 0 then "Z"
  else
    let zone := Z.quot (Offset t) 60 in
    (if zone <? 0 then "-" else "+")
      +:+ appendInt (Z.quot (Z.abs zone) 60) 2 +:+ ":" +:+ appendInt (Z.rem (Z.abs zone) 60) 2.

(** Layout element [.999999999]: the fraction without trailing zeros,
    nothing when it is zero. *)
Fixpoint trimZeros (fuel : nat) (n : Z) : Z :=
  match fuel with
  | O => n
  | S fuel' => if (n mod 10 =? 0) && negb (n =? 0) then trimZeros fuel' (n / 10) else n
  end.

Definition formatFrac (t : Time) : string :=
  let ns := Nanosecond t in
  if ns =? 0 then ""
  else
    let r := trimZeros 9 ns in
    let ds := strconv.digitsOf r in
    let full := String.length (strconv.digitsOf ns) in
    "." +:+ strconv.zeros (9 - full) +:+ ds.

(** [t.Format(time.RFC3339)], layout [2006-01-02T15:04:05Z07:00]. *)
Definition formatRFC3339 (t : Time) : string :=
  formatDate t +:+ "T" +:+ formatClock t +:+ formatZone t.

(** [t.Format(time.RFC3339Nano)]. *)
Definition formatRFC3339Nano (t : Time) : string :=
  formatDate t +:+ "T" +:+ formatClock t +:+ formatFrac t +:+ formatZone t.

(** [Time.MarshalJSON]: the RFC 3339 text, refused when the year does
    not have four digits or the zone is a day or more from UTC. *)
Definition MarshalJSON (t : Time) : option string :=
  if (Year t <? 0) || (9999 <? Year t)
     || (24 <=? Z.quot (Z.abs (Z.quot (Offset t) 60)) 60)
  then None else Some (formatRFC3339Nano t).

End time.

(** ** [net/url] *)
Module url.

Definition isAlnum (c : ascii) : bool :=
  let n := Z.of_N (N_of_ascii c) in
  ((97 <=? n) && (n <=? 122)) || ((65 <=? n) && (n <=? 90)) || ((48 <=? n) && (n <=? 57)).

(** [shouldEscape(c, encodeQueryComponent)]: everything but the
    unreserved characters. *)
Definition shouldEscape (c : ascii) : bool :=
  negb (isAlnum c || Ascii.eqb c "-" || Ascii.eqb c "_" || Ascii.eqb c "." || Ascii.eqb c "~").

Definition upperhex (n : N) : ascii :=
  ascii_of_N (if (n <? 10)%N then 48 + n else 55 + n)%N.

(** [QueryEscape]: a space becomes [+], an escaped byte [%XX]. *)
Fixpoint QueryEscape (s : string) : string :=
  match s with
  | EmptyString => EmptyString
  | String c rest =>
      if Ascii.eqb c " " then String "+" (QueryEscape rest)
      else if shouldEscape c then
        let n := N_of_ascii c in
        String "%" (String (upperhex (n / 16)) (String (upperhex (n mod 16)) (QueryEscape rest)))
      else String c (QueryEscape rest)
  end.

(** [type Values map[string][]string]. *)
Abbreviation Values := (gmap string (list string)).

(** [v.Set(key, value)] replaces whatever the key held. *)
Definition Set_ (key value : string) (v : Values) : Values := <[key := [value]]> v.

Definition strLe (a b : string) : Prop := Is_true (String.leb a b).

Definition sortedKeys (v : Values) : list string :=
  merge_sort strLe ((map_to_list v).*1).

(** The [key=value] pieces of [Encode], keys in sorted order. *)
Definition segments (v : Values) : list string :=
  k ← sortedKeys v;
  (fun x => QueryEscape k +:+ "=" +:+ QueryEscape x) <$> default [] (v !! k).

(** [v.Encode()]. *)
Definition Encode (v : Values) : string := String.concat "&" (segments v).

End url.

(** ** Outcomes

    The error kinds of the specification, and what a Go call can do:
    return, return an error, or panic. *)
Inductive Error :=
  | TransportError
  | UnexpectedStatusError (status : Z)
  | DecodeError
  | EncodeError
  | RequestError.

Inductive Outcome (A : Type) :=
  | Returns (a : A)
  | Fails (e : Error)
  | Panics.
Arguments Returns {A} a.
Arguments Fails {A} e.
Arguments Panics {A}.

(** ** [encoding/json] *)
Module json.

(** A JSON text as its value tree; a number keeps its literal. *)
Inductive JSON :=
  | JNull
  | JBool (b : bool)
  | JNumber (literal : string)
  | JString (s : string)
  | JArray (elems : list JSON)
  | JObject (members : list (string * JSON)).

(** The Go values the structures of the file hold. *)
Inductive Value :=
  | VString (s : string)
  | VInt (bits : Z) (n : Z)
  | VFloat64 (f : float64)
  | VTime (t : time.Time)
  | VPtrTime (p : option time.Time).

(** A struct field as reflection shows it: its Go name, its [json] tag
    and its value. *)
Record Field := { goName : string; tag : string; value : Value }.

(** *** Struct tags ([tags.go]) *)

Fixpoint splitComma (acc : string) (s : string) : list string :=
  match s with
  | EmptyString => [acc]
  | String c rest =>
      if Ascii.eqb c "," then acc :: splitComma "" rest
      else splitComma (acc +:+ String c "") rest
  end.

(** [parseTag]: the name before the first comma, the options after it. *)
Definition tagName (tag : string) : string := hd "" (splitComma "" tag).
Definition tagOptions (tag : string) : list string := tl (splitComma "" tag).

(** [tagOptions.Contains]. *)
Definition Contains (opts : list string) (name : string) : bool :=
  existsb (String.eqb name) opts.

(** [isValidTag]: letters, digits and some punctuation; the tags of
    this file are ASCII. *)
Definition isValidTagChar (c : ascii) : bool :=
  url.isAlnum c ||
  existsb (Ascii.eqb c) (list_ascii_of_string "!#$%&()*+-./:;<=>?@[]^_{|}~ ").

Definition isValidTag (s : string) : bool :=
  negb (String.eqb s "") && forallb isValidTagChar (list_ascii_of_string s).

(** The key of a field: the tag's name when it is valid, the Go name
    otherwise. *)
Definition keyOf (f : Field) : string :=
  if isValidTag (tagName (tag f)) then tagName (tag f) else goName f.

(** *** Marshal ([encode.go]) *)

(** [isEmptyValue]: the empty string, a number equal to zero, the nil
    pointer; a struct such as [time.Time] is never empty. *)
Definition isEmptyValue (v : Value) : bool :=
  match v with
  | VString s => String.eqb s ""
  | VInt _ n => n =? 0
  | VFloat64 f => PrimFloat.eqb f 0%float
  | VTime _ => false
  | VPtrTime p => match p with None => true | Some _ => false end
  end.

(** [floatEncoder]: as ES6 prints a number; [%e] below 1e-6 and from
    1e21 on, the exponent not padded. *)
Definition formatFloat (f : float64) : string :=
  match Prim2SF f with
  | S754_finite neg m e =>
      let digs := strconv.shortest (Z.pos m) e in
      let a := PrimFloat.abs f in
      if PrimFloat.ltb a 1e-6%float || PrimFloat.leb 1e21%float a
      then strconv.fmtE false neg digs
      else strconv.fmtF neg digs
  | S754_zero neg => if neg then "-0" else "0"
  | _ => ""
  end.

(** [utf8.DecodeRuneInString]: the number of bytes of the encoding at
    the head of the string, 0 when the first byte starts no valid
    encoding (the rune error of width 1).  The first byte gives the
    width and the range of the second byte; the bytes after it are
    continuation bytes. *)
Definition byteOf (c : ascii) : Z := Z.of_N (N_of_ascii c).

Definition between (lo hi : Z) (c : ascii) : bool :=
  (lo <=? byteOf c) && (byteOf c <=? hi).

Definition runeSize (s : string) : nat :=
  match s with
  | EmptyString => 0%nat
  | String c0 rest =>
      let b0 := byteOf c0 in
      if b0 <? 128 then 1%nat
      else if (b0 <? 194) || (244 <? b0) then 0%nat
      else
        let lo := if b0 =? 224 then 160 else if b0 =? 240 then 144 else 128 in
        let hi := if b0 =? 237 then 159 else if b0 =? 244 then 143 else 191 in
        match rest with
        | String c1 rest1 =>
            if negb (between lo hi c1) then 0%nat
            else if b0 <? 224 then 2%nat
            else
              match rest1 with
              | String c2 rest2 =>
                  if negb (between 128 191 c2) then 0%nat
                  else if b0 <? 240 then 3%nat
                  else
                    match rest2 with
                    | String c3 _ => if between 128 191 c3 then 4%nat else 0%nat
                    | EmptyString => 0%nat
                    end
              | EmptyString => 0%nat
              end
        | EmptyString => 0%nat
        end
  end.

(** U+FFFD, the replacement character, in UTF-8. *)
Definition replacement : string :=
  String (ascii_of_N 239) (String (ascii_of_N 191) (String (ascii_of_N 189) EmptyString)).

(** [appendString] of the encoder, as the string the written literal
    denotes: a valid encoding is kept, every byte that starts none is
    replaced by U+FFFD.  [skip] counts the bytes still to copy of the
    encoding being kept. *)
Fixpoint coerceFrom (skip : nat) (s : string) : string :=
  match s with
  | EmptyString => EmptyString
  | String c rest =>
      match skip with
      | S n => String c (coerceFrom n rest)
      | O =>
          match runeSize s with
          | O => replacement +:+ coerceFrom 0 rest
          | S n => String c (coerceFrom n rest)
          end
      end
  end.

Definition toValidUTF8 (s : string) : string := coerceFrom 0 s.

(** The encoder of a value, as a value tree (the escaping of the text
    is left out): a string with its invalid UTF-8 replaced; NaN and the
    infinities are unsupported values, a time can be refused by its
    [MarshalJSON]. *)
Definition encodeValue (v : Value) : option JSON :=
  match v with
  | VString s => Some (JString (toValidUTF8 s))
  | VInt _ n => Some (JNumber (strconv.Itoa n))
  | VFloat64 f =>
      if PrimFloat.is_nan f || PrimFloat.is_infinity f then None
      else Some (JNumber (formatFloat f))
  | VTime t => JString <$> time.MarshalJSON t
  | VPtrTime None => Some JNull
  | VPtrTime (Some t) => JString <$> time.MarshalJSON t
  end.

(** [structEncoder]: the fields in declaration order; a field tagged
    [-] is no field of the encoding, a field with the [omitempty]
    option is left out when its value is empty.  No field this file
    marshals carries the [string] option. *)
Fixpoint encodeFields (fs : list Field) : option (list (string * JSON)) :=
  match fs with
  | [] => Some []
  | f :: rest =>
      if String.eqb (tag f) "-" then encodeFields rest
      else if Contains (tagOptions (tag f)) "omitempty" && isEmptyValue (value f)
      then encodeFields rest
      else
        match encodeValue (value f) with
        | None => None
        | Some j =>
            match encodeFields rest with
            | None => None
            | Some ms => Some ((keyOf f, j) :: ms)
            end
        end
  end.

(** [json.Marshal] of a pointer to a struct. *)
Definition Marshal (fs : list Field) : option JSON := JObject <$> encodeFields fs.

(** The keys of a serialized body. *)
Definition keys (j : JSON) : list string :=
  match j with
  | JObject ms => ms.*1
  | _ => []
  end.

(** A field is kept in the encoding unless it is tagged [-] or is
    empty under [omitempty]. *)
Definition kept (f : Field) : bool :=
  negb (String.eqb (tag f) "-")
  && negb (Contains (tagOptions (tag f)) "omitempty" && isEmptyValue (value f)).

(** Whether a kept field has the key [k]. *)
Definition hasKey (k : string) (fs : list Field) : bool :=
  existsb (fun f => kept f && String.eqb (keyOf f) k) fs.

(** *** Decode ([decode.go]) *)

Definition isDigit (c : ascii) : bool :=
  let n := Z.of_N (N_of_ascii c) in (48 <=? n) && (n <=? 57).

Fixpoint parseDigits (acc : Z) (s : string) : option Z :=
  match s with
  | EmptyString => Some acc
  | String c rest =>
      if isDigit c then parseDigits (10 * acc + (Z.of_N (N_of_ascii c) - 48)) rest
      else None
  end.

(** [strconv.ParseInt(s, 10, 64)]: an optional sign and decimal digits,
    within the range of [int64]. *)
Definition ParseInt (s : string) : option Z :=
  match s with
  | EmptyString => None
  | String c rest =>
      let neg := Ascii.eqb c "-" in
      let body := if neg || Ascii.eqb c "+" then rest else s in
      if String.eqb body "" then None
      else
        match parseDigits 0 body with
        | None => None
        | Some n =>
            let v := if neg then - n else n in
            if (- 2 ^ 63 <=? v) && (v <? 2 ^ 63) then Some v else None
        end
  end.

(** [reflect.Value.OverflowInt] negated: [n] fits an integer of [bits]
    bits. *)
Definition fitsInt (bits n : Z) : bool :=
  (- 2 ^ (bits - 1) <=? n) && (n <? 2 ^ (bits - 1)).

(** [foldName]: the key under simple case folding.  Besides the ASCII
    letters only U+017F (long s) and U+212A (Kelvin sign) fold to an
    ASCII letter; every other byte is kept. *)
Fixpoint foldName (s : string) : string :=
  match s with
  | EmptyString => EmptyString
  | String c rest =>
      let n := N_of_ascii c in
      if ((97 <=? n) && (n <=? 122))%N then String (ascii_of_N (n - 32)) (foldName rest)
      else
        match rest with
        | String c1 rest1 =>
            if ((n =? 197) && (N_of_ascii c1 =? 191))%N then String "S" (foldName rest1)
            else
              match rest1 with
              | String c2 rest2 =>
                  if ((n =? 226) && (N_of_ascii c1 =? 132) && (N_of_ascii c2 =? 170))%N
                  then String "K" (foldName rest2)
                  else String c (foldName rest)
              | EmptyString => String c (foldName rest)
              end
        | EmptyString => String c EmptyString
        end
  end.

(** A field of a struct being decoded into: the value it holds and the
    assignment to it. *)
Record Lens (S : Type) := {
  fieldName : string;
  fieldTag : string;
  get : S -> Value;
  set : Value -> S -> S
}.
Arguments fieldName {S} _.
Arguments fieldTag {S} _.
Arguments get {S} _ _.
Arguments set {S} _ _ _.

Definition fieldOf {S : Type} (s : S) (l : Lens S) : Field :=
  {| goName := fieldName l; tag := fieldTag l; value := get l s |}.

Definition lensKey {S : Type} (l : Lens S) : string :=
  keyOf {| goName := fieldName l; tag := fieldTag l; value := VString "" |}.

(** [typeFields]: the [string] option counts on the scalar kinds. *)
Definition quoted {S : Type} (l : Lens S) (v : Value) : bool :=
  Contains (tagOptions (fieldTag l)) "string" &&
  match v with VString _ | VInt _ _ | VFloat64 _ => true | _ => false end.

(** The field a key names: the exact match, or else the first match
    under case folding. *)
Definition findField {S : Type} (fs : list (Lens S)) (key : string) : option (Lens S) :=
  let named := List.filter (fun l => negb (String.eqb (fieldTag l) "-")) fs in
  match find (fun l => String.eqb (lensKey l) key) named with
  | Some l => Some l
  | None => find (fun l => String.eqb (foldName (lensKey l)) (foldName key)) named
  end.

Section Decode.

(** The reading of a float from the text of a number, quoted or not,
    [strconv.ParseFloat(s, 64)] behind the decoder: the value, or
    nothing when the text is refused. *)
Variable ParseFloat : string -> option float64.

(** [time.Time.UnmarshalJSON] on the content of a JSON string: the
    RFC 3339 time, or nothing when it returns an error. *)
Variable ParseTime : string -> option time.Time.

(** A number under the [string] option: the text [null] stores
    nothing; any other text is handed to the parser of the number, and
    what the parser refuses fails the decode.  Whatever test of the
    text a decoder makes before it parses is part of [ParseFloat] as it
    is taken here.  (A Go string under the option would need its inner
    literal unquoted; no string field of this file carries it.) *)
Definition storeQuoted (old : Value) (s : string) : option Value :=
  if String.eqb s "null" then Some old
  else
    match old with
    | VFloat64 _ => VFloat64 <$> ParseFloat s
    | VInt bits _ =>
        match ParseInt s with
        | Some n => if fitsInt bits n then Some (VInt bits n) else None
        | None => None
        end
    | _ => None
    end.

(** [d.value] into a field.  [null] leaves a scalar as it is and
    clears a pointer; a time is handed to its [UnmarshalJSON]; under
    the [string] option only a JSON string (or [null]) is taken. *)
Definition store (q : bool) (old : Value) (j : JSON) : option Value :=
  match old with
  | VTime _ =>
      match j with
      | JNull => Some old
      | JString s => VTime <$> ParseTime s
      | _ => None
      end
  | VPtrTime _ =>
      match j with
      | JNull => Some (VPtrTime None)
      | JString s => (fun t => VPtrTime (Some t)) <$> ParseTime s
      | _ => None
      end
  | _ =>
      if q then
        match j with
        | JNull => Some old
        | JString s => storeQuoted old s
        | _ => None
        end
      else
        match old, j with
        | _, JNull => Some old
        | VString _, JString s => Some (VString s)
        | VInt bits _, JNumber lit =>
            match ParseInt lit with
            | Some n => if fitsInt bits n then Some (VInt bits n) else None
            | None => None
            end
        | VFloat64 _, JNumber lit => VFloat64 <$> ParseFloat lit
        | _, _ => None
        end
  end.

(** [d.object] into a struct: the members in the order of the text,
    a key that names no field skipped, the first error failing the
    decode. *)
Fixpoint decodeMembers {S : Type} (fs : list (Lens S))
    (ms : list (string * JSON)) (o : S) : option S :=
  match ms with
  | [] => Some o
  | (k, j) :: rest =>
      match findField fs k with
      | None => decodeMembers fs rest o
      | Some l =>
          match store (quoted l (get l o)) (get l o) j with
          | None => None
          | Some v => decodeMembers fs rest (set l v o)
          end
      end
  end.

(** Decoding into a struct value. *)
Definition decodeStruct {S : Type} (fs : list (Lens S)) (zero : S) (j : JSON) : option S :=
  match j with
  | JNull => Some zero
  | JObject ms => decodeMembers fs ms zero
  | _ => None
  end.

(** Decoding into a pointer to a struct: [null] is the nil pointer. *)
Definition decodePtr {S : Type} (fs : list (Lens S)) (zero : S) (j : JSON)
    : option (option S) :=
  match j with
  | JNull => Some None
  | JObject ms => Some <$> decodeMembers fs ms zero
  | _ => None
  end.

(** Decoding into a slice of pointers: [null] is the nil slice. *)
Definition decodeSlice {S : Type} (fs : list (Lens S)) (zero : S) (j : JSON)
    : option (list (option S)) :=
  match j with
  | JNull => Some []
  | JArray elems => mapM (decodePtr fs zero) elems
  | _ => None
  end.

End Decode.

End json.

(** ** The structures of observations.go *)

Module Location.
Record t := { Longitude : float64; Latitude : float64 }.
End Location.

Module Rectangle.
Record t := { Southwest : Location.t; Northeast : Location.t }.
End Rectangle.

(** [SimpleObservation] (lines 23-44): latitude and longitude carry the
    [string] option. *)
Module SimpleObservation.

Record t := {
  Id : Z;
  UserLogin : string;
  PlaceGuess : string;
  SpeciesGuess : string;
  Latitude : float64;
  Longitude : float64;
  CreatedAt : time.Time;
  ObservedOn : string;
  ObservedOnString : string;
  UpdatedAt : time.Time;
  TaxonId : Z;
  UserId : Z;
  SiteId : Z;
  TimeZone : string;
  Description : string;
  Uri : string;
  Uuid : string;
  TimeObservedAtUtc : time.Time;
  PositionalAccuracy : Z;
  PublicPositionalAccuracy : Z
}.

(** The zero value, what [var result SimpleObservation] holds. *)
Definition zero : t :=
  {| Id := 0; UserLogin := ""; PlaceGuess := ""; SpeciesGuess := ""; Latitude :=
     0%float; Longitude := 0%float; CreatedAt := time.zero; ObservedOn := "";
     ObservedOnString := ""; UpdatedAt := time.zero; TaxonId := 0; UserId := 0;
     SiteId := 0; TimeZone := ""; Description := ""; Uri := ""; Uuid := "";
     TimeObservedAtUtc := time.zero; PositionalAccuracy := 0;
     PublicPositionalAccuracy := 0 |}.

(** Assignment to one field. *)
Definition set_Id (x : Z) (o : t) : t :=
  {| Id := x; UserLogin := UserLogin o; PlaceGuess := PlaceGuess o; SpeciesGuess
     := SpeciesGuess o; Latitude := Latitude o; Longitude := Longitude o;
     CreatedAt := CreatedAt o; ObservedOn := ObservedOn o; ObservedOnString :=
     ObservedOnString o; UpdatedAt := UpdatedAt o; TaxonId := TaxonId o; UserId :=
     UserId o; SiteId := SiteId o; TimeZone := TimeZone o; Description :=
     Description o; Uri := Uri o; Uuid := Uuid o; TimeObservedAtUtc :=
     TimeObservedAtUtc o; PositionalAccuracy := PositionalAccuracy o;
     PublicPositionalAccuracy := PublicPositionalAccuracy o |}.

Definition set_UserLogin (x : string) (o : t) : t :=
  {| Id := Id o; UserLogin := x; PlaceGuess := PlaceGuess o; SpeciesGuess :=
     SpeciesGuess o; Latitude := Latitude o; Longitude := Longitude o; CreatedAt
     := CreatedAt o; ObservedOn := ObservedOn o; ObservedOnString :=
     ObservedOnString o; UpdatedAt := UpdatedAt o; TaxonId := TaxonId o; UserId :=
     UserId o; SiteId := SiteId o; TimeZone := TimeZone o; Description :=
     Description o; Uri := Uri o; Uuid := Uuid o; TimeObservedAtUtc :=
     TimeObservedAtUtc o; PositionalAccuracy := PositionalAccuracy o;
     PublicPositionalAccuracy := PublicPositionalAccuracy o |}.

Definition set_PlaceGuess (x : string) (o : t) : t :=
  {| Id := Id o; UserLogin := UserLogin o; PlaceGuess := x; SpeciesGuess :=
     SpeciesGuess o; Latitude := Latitude o; Longitude := Longitude o; CreatedAt
     := CreatedAt o; ObservedOn := ObservedOn o; ObservedOnString :=
     ObservedOnString o; UpdatedAt := UpdatedAt o; TaxonId := TaxonId o; UserId :=
     UserId o; SiteId := SiteId o; TimeZone := TimeZone o; Description :=
     Description o; Uri := Uri o; Uuid := Uuid o; TimeObservedAtUtc :=
     TimeObservedAtUtc o; PositionalAccuracy := PositionalAccuracy o;
     PublicPositionalAccuracy := PublicPositionalAccuracy o |}.

Definition set_SpeciesGuess (x : string) (o : t) : t :=
  {| Id := Id o; UserLogin := UserLogin o; PlaceGuess := PlaceGuess o;
     SpeciesGuess := x; Latitude := Latitude o; Longitude := Longitude o;
     CreatedAt := CreatedAt o; ObservedOn := ObservedOn o; ObservedOnString :=
     ObservedOnString o; UpdatedAt := UpdatedAt o; TaxonId := TaxonId o; UserId :=
     UserId o; SiteId := SiteId o; TimeZone := TimeZone o; Description :=
     Description o; Uri := Uri o; Uuid := Uuid o; TimeObservedAtUtc :=
     TimeObservedAtUtc o; PositionalAccuracy := PositionalAccuracy o;
     PublicPositionalAccuracy := PublicPositionalAccuracy o |}.

Definition set_Latitude (x : float64) (o : t) : t :=
  {| Id := Id o; UserLogin := UserLogin o; PlaceGuess := PlaceGuess o;
     SpeciesGuess := SpeciesGuess o; Latitude := x; Longitude := Longitude o;
     CreatedAt := CreatedAt o; ObservedOn := ObservedOn o; ObservedOnString :=
     ObservedOnString o; UpdatedAt := UpdatedAt o; TaxonId := TaxonId o; UserId :=
     UserId o; SiteId := SiteId o; TimeZone := TimeZone o; Description :=
     Description o; Uri := Uri o; Uuid := Uuid o; TimeObservedAtUtc :=
     TimeObservedAtUtc o; PositionalAccuracy := PositionalAccuracy o;
     PublicPositionalAccuracy := PublicPositionalAccuracy o |}.

Definition set_Longitude (x : float64) (o : t) : t :=
  {| Id := Id o; UserLogin := UserLogin o; PlaceGuess := PlaceGuess o;
     SpeciesGuess := SpeciesGuess o; Latitude := Latitude o; Longitude := x;
     CreatedAt := CreatedAt o; ObservedOn := ObservedOn o; ObservedOnString :=
     ObservedOnString o; UpdatedAt := UpdatedAt o; TaxonId := TaxonId o; UserId :=
     UserId o; SiteId := SiteId o; TimeZone := TimeZone o; Description :=
     Description o; Uri := Uri o; Uuid := Uuid o; TimeObservedAtUtc :=
     TimeObservedAtUtc o; PositionalAccuracy := PositionalAccuracy o;
     PublicPositionalAccuracy := PublicPositionalAccuracy o |}.

Definition set_CreatedAt (x : time.Time) (o : t) : t :=
  {| Id := Id o; UserLogin := UserLogin o; PlaceGuess := PlaceGuess o;
     SpeciesGuess := SpeciesGuess o; Latitude := Latitude o; Longitude :=
     Longitude o; CreatedAt := x; ObservedOn := ObservedOn o; ObservedOnString :=
     ObservedOnString o; UpdatedAt := UpdatedAt o; TaxonId := TaxonId o; UserId :=
     UserId o; SiteId := SiteId o; TimeZone := TimeZone o; Description :=
     Description o; Uri := Uri o; Uuid := Uuid o; TimeObservedAtUtc :=
     TimeObservedAtUtc o; PositionalAccuracy := PositionalAccuracy o;
     PublicPositionalAccuracy := PublicPositionalAccuracy o |}.

Definition set_ObservedOn (x : string) (o : t) : t :=
  {| Id := Id o; UserLogin := UserLogin o; PlaceGuess := PlaceGuess o;
     SpeciesGuess := SpeciesGuess o; Latitude := Latitude o; Longitude :=
     Longitude o; CreatedAt := CreatedAt o; ObservedOn := x; ObservedOnString :=
     ObservedOnString o; UpdatedAt := UpdatedAt o; TaxonId := TaxonId o; UserId :=
     UserId o; SiteId := SiteId o; TimeZone := TimeZone o; Description :=
     Description o; Uri := Uri o; Uuid := Uuid o; TimeObservedAtUtc :=
     TimeObservedAtUtc o; PositionalAccuracy := PositionalAccuracy o;
     PublicPositionalAccuracy := PublicPositionalAccuracy o |}.

Definition set_ObservedOnString (x : string) (o : t) : t :=
  {| Id := Id o; UserLogin := UserLogin o; PlaceGuess := PlaceGuess o;
     SpeciesGuess := SpeciesGuess o; Latitude := Latitude o; Longitude :=
     Longitude o; CreatedAt := CreatedAt o; ObservedOn := ObservedOn o;
     ObservedOnString := x; UpdatedAt := UpdatedAt o; TaxonId := TaxonId o; UserId
     := UserId o; SiteId := SiteId o; TimeZone := TimeZone o; Description :=
     Description o; Uri := Uri o; Uuid := Uuid o; TimeObservedAtUtc :=
     TimeObservedAtUtc o; PositionalAccuracy := PositionalAccuracy o;
     PublicPositionalAccuracy := PublicPositionalAccuracy o |}.

Definition set_UpdatedAt (x : time.Time) (o : t) : t :=
  {| Id := Id o; UserLogin := UserLogin o; PlaceGuess := PlaceGuess o;
     SpeciesGuess := SpeciesGuess o; Latitude := Latitude o; Longitude :=
     Longitude o; CreatedAt := CreatedAt o; ObservedOn := ObservedOn o;
     ObservedOnString := ObservedOnString o; UpdatedAt := x; TaxonId := TaxonId o;
     UserId := UserId o; SiteId := SiteId o; TimeZone := TimeZone o; Description
     := Description o; Uri := Uri o; Uuid := Uuid o; TimeObservedAtUtc :=
     TimeObservedAtUtc o; PositionalAccuracy := PositionalAccuracy o;
     PublicPositionalAccuracy := PublicPositionalAccuracy o |}.

Definition set_TaxonId (x : Z) (o : t) : t :=
  {| Id := Id o; UserLogin := UserLogin o; PlaceGuess := PlaceGuess o;
     SpeciesGuess := SpeciesGuess o; Latitude := Latitude o; Longitude :=
     Longitude o; CreatedAt := CreatedAt o; ObservedOn := ObservedOn o;
     ObservedOnString := ObservedOnString o; UpdatedAt := UpdatedAt o; TaxonId :=
     x; UserId := UserId o; SiteId := SiteId o; TimeZone := TimeZone o;
     Description := Description o; Uri := Uri o; Uuid := Uuid o; TimeObservedAtUtc
     := TimeObservedAtUtc o; PositionalAccuracy := PositionalAccuracy o;
     PublicPositionalAccuracy := PublicPositionalAccuracy o |}.

Definition set_UserId (x : Z) (o : t) : t :=
  {| Id := Id o; UserLogin := UserLogin o; PlaceGuess := PlaceGuess o;
     SpeciesGuess := SpeciesGuess o; Latitude := Latitude o; Longitude :=
     Longitude o; CreatedAt := CreatedAt o; ObservedOn := ObservedOn o;
     ObservedOnString := ObservedOnString o; UpdatedAt := UpdatedAt o; TaxonId :=
     TaxonId o; UserId := x; SiteId := SiteId o; TimeZone := TimeZone o;
     Description := Description o; Uri := Uri o; Uuid := Uuid o; TimeObservedAtUtc
     := TimeObservedAtUtc o; PositionalAccuracy := PositionalAccuracy o;
     PublicPositionalAccuracy := PublicPositionalAccuracy o |}.

Definition set_SiteId (x : Z) (o : t) : t :=
  {| Id := Id o; UserLogin := UserLogin o; PlaceGuess := PlaceGuess o;
     SpeciesGuess := SpeciesGuess o; Latitude := Latitude o; Longitude :=
     Longitude o; CreatedAt := CreatedAt o; ObservedOn := ObservedOn o;
     ObservedOnString := ObservedOnString o; UpdatedAt := UpdatedAt o; TaxonId :=
     TaxonId o; UserId := UserId o; SiteId := x; TimeZone := TimeZone o;
     Description := Description o; Uri := Uri o; Uuid := Uuid o; TimeObservedAtUtc
     := TimeObservedAtUtc o; PositionalAccuracy := PositionalAccuracy o;
     PublicPositionalAccuracy := PublicPositionalAccuracy o |}.

Definition set_TimeZone (x : string) (o : t) : t :=
  {| Id := Id o; UserLogin := UserLogin o; PlaceGuess := PlaceGuess o;
     SpeciesGuess := SpeciesGuess o; Latitude := Latitude o; Longitude :=
     Longitude o; CreatedAt := CreatedAt o; ObservedOn := ObservedOn o;
     ObservedOnString := ObservedOnString o; UpdatedAt := UpdatedAt o; TaxonId :=
     TaxonId o; UserId := UserId o; SiteId := SiteId o; TimeZone := x; Description
     := Description o; Uri := Uri o; Uuid := Uuid o; TimeObservedAtUtc :=
     TimeObservedAtUtc o; PositionalAccuracy := PositionalAccuracy o;
     PublicPositionalAccuracy := PublicPositionalAccuracy o |}.

Definition set_Description (x : string) (o : t) : t :=
  {| Id := Id o; UserLogin := UserLogin o; PlaceGuess := PlaceGuess o;
     SpeciesGuess := SpeciesGuess o; Latitude := Latitude o; Longitude :=
     Longitude o; CreatedAt := CreatedAt o; ObservedOn := ObservedOn o;
     ObservedOnString := ObservedOnString o; UpdatedAt := UpdatedAt o; TaxonId :=
     TaxonId o; UserId := UserId o; SiteId := SiteId o; TimeZone := TimeZone o;
     Description := x; Uri := Uri o; Uuid := Uuid o; TimeObservedAtUtc :=
     TimeObservedAtUtc o; PositionalAccuracy := PositionalAccuracy o;
     PublicPositionalAccuracy := PublicPositionalAccuracy o |}.

Definition set_Uri (x : string) (o : t) : t :=
  {| Id := Id o; UserLogin := UserLogin o; PlaceGuess := PlaceGuess o;
     SpeciesGuess := SpeciesGuess o; Latitude := Latitude o; Longitude :=
     Longitude o; CreatedAt := CreatedAt o; ObservedOn := ObservedOn o;
     ObservedOnString := ObservedOnString o; UpdatedAt := UpdatedAt o; TaxonId :=
     TaxonId o; UserId := UserId o; SiteId := SiteId o; TimeZone := TimeZone o;
     Description := Description o; Uri := x; Uuid := Uuid o; TimeObservedAtUtc :=
     TimeObservedAtUtc o; PositionalAccuracy := PositionalAccuracy o;
     PublicPositionalAccuracy := PublicPositionalAccuracy o |}.

Definition set_Uuid (x : string) (o : t) : t :=
  {| Id := Id o; UserLogin := UserLogin o; PlaceGuess := PlaceGuess o;
     SpeciesGuess := SpeciesGuess o; Latitude := Latitude o; Longitude :=
     Longitude o; CreatedAt := CreatedAt o; ObservedOn := ObservedOn o;
     ObservedOnString := ObservedOnString o; UpdatedAt := UpdatedAt o; TaxonId :=
     TaxonId o; UserId := UserId o; SiteId := SiteId o; TimeZone := TimeZone o;
     Description := Description o; Uri := Uri o; Uuid := x; TimeObservedAtUtc :=
     TimeObservedAtUtc o; PositionalAccuracy := PositionalAccuracy o;
     PublicPositionalAccuracy := PublicPositionalAccuracy o |}.

Definition set_TimeObservedAtUtc (x : time.Time) (o : t) : t :=
  {| Id := Id o; UserLogin := UserLogin o; PlaceGuess := PlaceGuess o;
     SpeciesGuess := SpeciesGuess o; Latitude := Latitude o; Longitude :=
     Longitude o; CreatedAt := CreatedAt o; ObservedOn := ObservedOn o;
     ObservedOnString := ObservedOnString o; UpdatedAt := UpdatedAt o; TaxonId :=
     TaxonId o; UserId := UserId o; SiteId := SiteId o; TimeZone := TimeZone o;
     Description := Description o; Uri := Uri o; Uuid := Uuid o; TimeObservedAtUtc
     := x; PositionalAccuracy := PositionalAccuracy o; PublicPositionalAccuracy :=
     PublicPositionalAccuracy o |}.

Definition set_PositionalAccuracy (x : Z) (o : t) : t :=
  {| Id := Id o; UserLogin := UserLogin o; PlaceGuess := PlaceGuess o;
     SpeciesGuess := SpeciesGuess o; Latitude := Latitude o; Longitude :=
     Longitude o; CreatedAt := CreatedAt o; ObservedOn := ObservedOn o;
     ObservedOnString := ObservedOnString o; UpdatedAt := UpdatedAt o; TaxonId :=
     TaxonId o; UserId := UserId o; SiteId := SiteId o; TimeZone := TimeZone o;
     Description := Description o; Uri := Uri o; Uuid := Uuid o; TimeObservedAtUtc
     := TimeObservedAtUtc o; PositionalAccuracy := x; PublicPositionalAccuracy :=
     PublicPositionalAccuracy o |}.

Definition set_PublicPositionalAccuracy (x : Z) (o : t) : t :=
  {| Id := Id o; UserLogin := UserLogin o; PlaceGuess := PlaceGuess o;
     SpeciesGuess := SpeciesGuess o; Latitude := Latitude o; Longitude :=
     Longitude o; CreatedAt := CreatedAt o; ObservedOn := ObservedOn o;
     ObservedOnString := ObservedOnString o; UpdatedAt := UpdatedAt o; TaxonId :=
     TaxonId o; UserId := UserId o; SiteId := SiteId o; TimeZone := TimeZone o;
     Description := Description o; Uri := Uri o; Uuid := Uuid o; TimeObservedAtUtc
     := TimeObservedAtUtc o; PositionalAccuracy := PositionalAccuracy o;
     PublicPositionalAccuracy := x |}.

(** The fields with their tags, in declaration order. *)
Definition fields : list (json.Lens t) :=
  [ {| json.fieldName := "Id"; json.fieldTag := "id";
       json.get := fun o => json.VInt 64 (Id o);
       json.set := fun v o => match v with json.VInt _ x => set_Id x o | _ => o end |};
    {| json.fieldName := "UserLogin"; json.fieldTag := "user_login";
       json.get := fun o => json.VString (UserLogin o);
       json.set := fun v o => match v with json.VString x => set_UserLogin x o | _ => o end |};
    {| json.fieldName := "PlaceGuess"; json.fieldTag := "place_guess";
       json.get := fun o => json.VString (PlaceGuess o);
       json.set := fun v o => match v with json.VString x => set_PlaceGuess x o | _ => o end |};
    {| json.fieldName := "SpeciesGuess"; json.fieldTag := "species_guess";
       json.get := fun o => json.VString (SpeciesGuess o);
       json.set := fun v o => match v with json.VString x => set_SpeciesGuess x o | _ => o end |};
    {| json.fieldName := "Latitude"; json.fieldTag := "latitude,string";
       json.get := fun o => json.VFloat64 (Latitude o);
       json.set := fun v o => match v with json.VFloat64 x => set_Latitude x o | _ => o end |};
    {| json.fieldName := "Longitude"; json.fieldTag := "longitude,string";
       json.get := fun o => json.VFloat64 (Longitude o);
       json.set := fun v o => match v with json.VFloat64 x => set_Longitude x o | _ => o end |};
    {| json.fieldName := "CreatedAt"; json.fieldTag := "created_at_utc";
       json.get := fun o => json.VTime (CreatedAt o);
       json.set := fun v o => match v with json.VTime x => set_CreatedAt x o | _ => o end |};
    {| json.fieldName := "ObservedOn"; json.fieldTag := "observed_on";
       json.get := fun o => json.VString (ObservedOn o);
       json.set := fun v o => match v with json.VString x => set_ObservedOn x o | _ => o end |};
    {| json.fieldName := "ObservedOnString"; json.fieldTag := "observed_on_string";
       json.get := fun o => json.VString (ObservedOnString o);
       json.set := fun v o => match v with json.VString x => set_ObservedOnString x o | _ => o end |};
    {| json.fieldName := "UpdatedAt"; json.fieldTag := "updated_at_utc";
       json.get := fun o => json.VTime (UpdatedAt o);
       json.set := fun v o => match v with json.VTime x => set_UpdatedAt x o | _ => o end |};
    {| json.fieldName := "TaxonId"; json.fieldTag := "taxon_id";
       json.get := fun o => json.VInt 32 (TaxonId o);
       json.set := fun v o => match v with json.VInt _ x => set_TaxonId x o | _ => o end |};
    {| json.fieldName := "UserId"; json.fieldTag := "user_id";
       json.get := fun o => json.VInt 64 (UserId o);
       json.set := fun v o => match v with json.VInt _ x => set_UserId x o | _ => o end |};
    {| json.fieldName := "SiteId"; json.fieldTag := "site_id";
       json.get := fun o => json.VInt 64 (SiteId o);
       json.set := fun v o => match v with json.VInt _ x => set_SiteId x o | _ => o end |};
    {| json.fieldName := "TimeZone"; json.fieldTag := "time_zone";
       json.get := fun o => json.VString (TimeZone o);
       json.set := fun v o => match v with json.VString x => set_TimeZone x o | _ => o end |};
    {| json.fieldName := "Description"; json.fieldTag := "description";
       json.get := fun o => json.VString (Description o);
       json.set := fun v o => match v with json.VString x => set_Description x o | _ => o end |};
    {| json.fieldName := "Uri"; json.fieldTag := "uri";
       json.get := fun o => json.VString (Uri o);
       json.set := fun v o => match v with json.VString x => set_Uri x o | _ => o end |};
    {| json.fieldName := "Uuid"; json.fieldTag := "uuid";
       json.get := fun o => json.VString (Uuid o);
       json.set := fun v o => match v with json.VString x => set_Uuid x o | _ => o end |};
    {| json.fieldName := "TimeObservedAtUtc"; json.fieldTag := "time_observed_at_utc";
       json.get := fun o => json.VTime (TimeObservedAtUtc o);
       json.set := fun v o => match v with json.VTime x => set_TimeObservedAtUtc x o | _ => o end |};
    {| json.fieldName := "PositionalAccuracy"; json.fieldTag := "positional_accuracy";
       json.get := fun o => json.VInt 32 (PositionalAccuracy o);
       json.set := fun v o => match v with json.VInt _ x => set_PositionalAccuracy x o | _ => o end |};
    {| json.fieldName := "PublicPositionalAccuracy"; json.fieldTag := "public_positional_accuracy";
       json.get := fun o => json.VInt 32 (PublicPositionalAccuracy o);
       json.set := fun v o => match v with json.VInt _ x => set_PublicPositionalAccuracy x o | _ => o end |} ].

End SimpleObservation.

(** [GetObservationsOpt] (lines 107-116): every field a pointer, nil
    when the caller sets nothing. *)
Module GetObservationsOpt.

Record t := {
  PerPage : option Z;
  Page : option Z;
  Rectangle : option Rectangle.t;
  On : option time.Time;
  UpdatedSince : option time.Time;
  OrderBy : option string;
  OrderAscending : option bool;
  HasGeo : option bool
}.

(** No option set. *)
Definition none : t :=
  {| PerPage := None; Page := None; Rectangle := None; On := None;
     UpdatedSince := None; OrderBy := None; OrderAscending := None; HasGeo := None |}.

End GetObservationsOpt.

(** [AddObservationOpt] (lines 177-186). *)
Module AddObservationOpt.

Record t := {
  SpeciesGuess : string;
  ObservedOnString : time.Time;
  Description : string;
  Latitude : float64;
  Longitude : float64;
  PositionalAccuracy : Z;
  Tags : string;
  GeoPrivacy : string
}.

Definition zero : t :=
  {| SpeciesGuess := ""; ObservedOnString := time.zero; Description := "";
     Latitude := 0%float; Longitude := 0%float; PositionalAccuracy := 0;
     Tags := ""; GeoPrivacy := "" |}.

(** The fields with their tags as the source writes them. *)
Definition fields (o : t) : list json.Field :=
  [ {| json.goName := "SpeciesGuess"; json.tag := "species_guess";
       json.value := json.VString (SpeciesGuess o) |};
    {| json.goName := "ObservedOnString"; json.tag := "observed_on_string,omit_empty";
       json.value := json.VTime (ObservedOnString o) |};
    {| json.goName := "Description"; json.tag := "description";
       json.value := json.VString (Description o) |};
    {| json.goName := "Latitude"; json.tag := "latitude";
       json.value := json.VFloat64 (Latitude o) |};
    {| json.goName := "Longitude"; json.tag := "longitude";
       json.value := json.VFloat64 (Longitude o) |};
    {| json.goName := "PositionalAccuracy"; json.tag := "positional_accuracy";
       json.value := json.VInt 32 (PositionalAccuracy o) |};
    {| json.goName := "Tags"; json.tag := "tag_list";
       json.value := json.VString (Tags o) |};
    {| json.goName := "GeoPrivacy"; json.tag := "geoprivacy";
       json.value := json.VString (GeoPrivacy o) |} ].

End AddObservationOpt.

(** [UpdateObservationOpt] (lines 233-243): the id is tagged [-], every
    other field carries [omitempty], the observation time is a pointer. *)
Module UpdateObservationOpt.

Record t := {
  Id : Z;
  SpeciesGuess : string;
  ObservedOnString : option time.Time;
  Description : string;
  Latitude : float64;
  Longitude : float64;
  PositionalAccuracy : Z;
  Tags : string;
  GeoPrivacy : string
}.

Definition zero : t :=
  {| Id := 0; SpeciesGuess := ""; ObservedOnString := None; Description := "";
     Latitude := 0%float; Longitude := 0%float; PositionalAccuracy := 0;
     Tags := ""; GeoPrivacy := "" |}.

Definition set_Id (id : Z) (o : t) : t :=
  {| Id := id; SpeciesGuess := SpeciesGuess o; ObservedOnString := ObservedOnString o;
     Description := Description o; Latitude := Latitude o; Longitude := Longitude o;
     PositionalAccuracy := PositionalAccuracy o; Tags := Tags o;
     GeoPrivacy := GeoPrivacy o |}.

Definition fields (o : t) : list json.Field :=
  [ {| json.goName := "Id"; json.tag := "-";
       json.value := json.VInt 64 (Id o) |};
    {| json.goName := "SpeciesGuess"; json.tag := "species_guess,omitempty";
       json.value := json.VString (SpeciesGuess o) |};
    {| json.goName := "ObservedOnString"; json.tag := "observed_on_string,omitempty";
       json.value := json.VPtrTime (ObservedOnString o) |};
    {| json.goName := "Description"; json.tag := "description,omitempty";
       json.value := json.VString (Description o) |};
    {| json.goName := "Latitude"; json.tag := "latitude,omitempty";
       json.value := json.VFloat64 (Latitude o) |};
    {| json.goName := "Longitude"; json.tag := "longitude,omitempty";
       json.value := json.VFloat64 (Longitude o) |};
    {| json.goName := "PositionalAccuracy"; json.tag := "positional_accuracy,omitempty";
       json.value := json.VInt 32 (PositionalAccuracy o) |};
    {| json.goName := "Tags"; json.tag := "tag_list,omitempty";
       json.value := json.VString (Tags o) |};
    {| json.goName := "GeoPrivacy"; json.tag := "geoprivacy,omitempty";
       json.value := json.VString (GeoPrivacy o) |} ].

End UpdateObservationOpt.

(** ** The client and its collaborators

    [Client] and its methods [buildUrl], [get] and [execute] live in
    another file of the package. *)

Record Request := { Method : string; URL : string; Body : option json.JSON }.

(** A response: its status and its body, [None] for a body that is not a
    JSON text. *)
Record Response := { StatusCode : Z; Payload : option json.JSON }.

(** The client as this file meets it: [c.buildUrl(format, args...)],
    taken as it comes; the URLs [http.NewRequest] accepts; and the round
    trip of [c.http.Do], [None] for a transport failure. *)
Record Client := {
  buildUrl : string -> list Z -> string;
  urlParses : string -> bool;
  Do : Request -> option Response
}.

Definition StatusCreated : Z := 201.

(** [http.NewRequest]: refused when the URL does not parse. *)
Definition NewRequest (c : Client) (method u : string) (body : option json.JSON)
    : option Request :=
  if urlParses c u then Some {| Method := method; URL := u; Body := body |} else None.

(** Modelled from the spec: [execute], the method of the client that
    the mutating operations call and observations.go does not define.
    It performs the call; a transport failure is surfaced unchanged; a
    status other than the expected one is an [UnexpectedStatusError]
    carrying the actual status; with a target the body is decoded into
    it, a body that does not decode being a [DecodeError]; with a nil
    target nothing is decoded. *)
Definition execute {A : Type} (c : Client) (req : Request)
    (result : option (json.JSON -> option A)) (needsStatus : Z) : Outcome (option A) :=
  match Do c req with
  | None => Fails TransportError
  | Some resp =>
      if StatusCode resp =? needsStatus then
        match result with
        | None => Returns None
        | Some decode =>
            match Payload resp with
            | None => Fails DecodeError
            | Some j =>
                match decode j with
                | None => Fails DecodeError
                | Some a => Returns (Some a)
                end
            end
        end
      else Fails (UnexpectedStatusError (StatusCode resp))
  end.

(** ** The operations *)

(** [GetObservations], lines 127-161: the query values. *)
Definition GetObservations_values (opt : GetObservationsOpt.t) : url.Values :=
  let v : url.Values := ∅ in
  let v := match GetObservationsOpt.Page opt with
           | Some p => url.Set_ "page" (strconv.Itoa p) v
           | None => v
           end in
  let v := match GetObservationsOpt.PerPage opt with
           | Some p => url.Set_ "per_page" (strconv.Itoa p) v
           | None => v
           end in
  let v := match GetObservationsOpt.Rectangle opt with
           | Some r =>
               let v := url.Set_ "swlng"
                          (fmt.Sprintf_v (Location.Longitude (Rectangle.Southwest r))) v in
               let v := url.Set_ "swlat"
                          (fmt.Sprintf_v (Location.Latitude (Rectangle.Southwest r))) v in
               let v := url.Set_ "nelng"
                          (fmt.Sprintf_v (Location.Longitude (Rectangle.Northeast r))) v in
               url.Set_ "nelat"
                 (fmt.Sprintf_v (Location.Latitude (Rectangle.Northeast r))) v
           | None => v
           end in
  let v := match GetObservationsOpt.OrderBy opt with
           | Some field =>
               let v := url.Set_ "order_by" field v in
               match GetObservationsOpt.OrderAscending opt with
               | None => url.Set_ "order" "desc" v
               | Some _ => v
               end
           | None => v
           end in
  let v := match GetObservationsOpt.OrderAscending opt with
           | Some asc => if asc then url.Set_ "order" "asc" v else url.Set_ "order" "desc" v
           | None => v
           end in
  let v := match GetObservationsOpt.UpdatedSince opt with
           | Some t => url.Set_ "updated_since" (time.formatRFC3339 t) v
           | None => v
           end in
  let v := match GetObservationsOpt.HasGeo opt with
           | Some _ => url.Set_ "has[]" "geo" v
           | None => v
           end in
  match GetObservationsOpt.On opt with
  | Some t => url.Set_ "on" (time.formatDate t) v
  | None => v
  end.

(** [GetObservations], lines 125-165: the URL handed to [c.get]; [opt]
    may be nil. *)
Definition GetObservations_url (c : Client) (opt : option GetObservationsOpt.t) : string :=
  let u := buildUrl c "/observations.json" [] in
  match opt with
  | Some o =>
      let params := url.Encode (GetObservations_values o) in
      if negb (String.eqb params "") then u +:+ "?" +:+ params else u
  | None => u
  end.

(** The request [UpdateObservation] builds (lines 246-256). *)
Definition UpdateObservation_request (c : Client) (opt : UpdateObservationOpt.t)
    : Outcome Request :=
  let u := buildUrl c "/observations/%d.json" [UpdateObservationOpt.Id opt] in
  match json.Marshal (UpdateObservationOpt.fields opt) with
  | None => Fails EncodeError
  | Some bodyJson =>
      match NewRequest c "PUT" u (Some bodyJson) with
      | None => Fails RequestError
      | Some req => Returns req
      end
  end.

(** [UpdateObservation] (lines 245-264): the response is decoded into an
    empty interface, which takes any JSON value, and dropped. *)
Definition UpdateObservation (c : Client) (opt : UpdateObservationOpt.t) : Outcome unit :=
  match UpdateObservation_request c opt with
  | Returns req =>
      match execute c req (Some (fun j : json.JSON => Some j)) StatusCreated with
      | Returns _ => Returns tt
      | Fails e => Fails e
      | Panics => Panics
      end
  | Fails e => Fails e
  | Panics => Panics
  end.

(** [DeleteObservation] (lines 266-281): an empty body, a nil target. *)
Definition DeleteObservation (c : Client) (id : Z) : Outcome unit :=
  let u := buildUrl c "/observations/%d.json" [id] in
  match NewRequest c "DELETE" u None with
  | None => Fails RequestError
  | Some req =>
      match execute (A := unit) c req None StatusCreated with
      | Returns _ => Returns tt
      | Fails e => Fails e
      | Panics => Panics
      end
  end.

(** The request [AddObservation] builds (lines 189-199). *)
Definition AddObservation_request (c : Client) (opt : AddObservationOpt.t)
    : Outcome Request :=
  let u := buildUrl c "/observations.json" [] in
  match json.Marshal (AddObservationOpt.fields opt) with
  | None => Fails EncodeError
  | Some bodyJson =>
      match NewRequest c "POST" u (Some bodyJson) with
      | None => Fails RequestError
      | Some req => Returns req
      end
  end.

Section Operations.

Variable ParseFloat : string -> option float64.
Variable ParseTime : string -> option time.Time.

(** Decoding a response into [SimpleObservation] and into
    [[]*SimpleObservation]. *)
Definition decodeSimpleObservation (j : json.JSON) : option SimpleObservation.t :=
  json.decodeStruct ParseFloat ParseTime SimpleObservation.fields SimpleObservation.zero j.

Definition decodeSimpleObservations (j : json.JSON)
    : option (list (option SimpleObservation.t)) :=
  json.decodeSlice ParseFloat ParseTime SimpleObservation.fields SimpleObservation.zero j.

(** [AddObservation] (lines 188-207): [result[0]] is taken without a
    look at the length; on an empty slice the index panics. *)
Definition AddObservation (c : Client) (opt : AddObservationOpt.t)
    : Outcome (option SimpleObservation.t) :=
  match AddObservation_request c opt with
  | Returns req =>
      match execute c req (Some decodeSimpleObservations) StatusCreated with
      | Returns result =>
          match default [] result with
          | first :: _ => Returns first
          | [] => Panics
          end
      | Fails e => Fails e
      | Panics => Panics
      end
  | Fails e => Fails e
  | Panics => Panics
  end.

End Operations.

(** ** Reference parsers

    [strconv.ParseFloat] and [time.Time.UnmarshalJSON] are parameters of
    the decoder.  The two parsers below stand in for them on the plain
    texts the examples use: decimal literals that convert exactly, and
    UTC timestamps to the second. *)
Module reference.

Fixpoint splitDot (acc : string) (s : string) : string * option string :=
  match s with
  | EmptyString => (acc, None)
  | String c rest =>
      if Ascii.eqb c "." then (acc, Some rest)
      else splitDot (acc +:+ String c "") rest
  end.

Definition floatOfZ (n : Z) : float64 := PrimFloat.of_uint63 (Uint63.of_Z n).

(** A literal [-]ddd[.ddd] of at most fifteen digits: the integer of
    its digits and the power of ten are floats, and their quotient is
    rounded once (the exact path of [atof64exact]). *)
Definition ParseFloat (s : string) : option float64 :=
  let neg := match s with String c _ => Ascii.eqb c "-" | EmptyString => false end in
  let body := if neg then strconv.drop 1 s else s in
  let '(int, frac) := splitDot "" body in
  let fr := default "" frac in
  if String.eqb int "" || (match frac with Some "" => true | _ => false end)
     || (15 <? String.length (int +:+ fr))%nat
  then None
  else
    match json.parseDigits 0 (int +:+ fr) with
    | None => None
    | Some n =>
        let q := PrimFloat.div (floatOfZ n) (floatOfZ (10 ^ Z.of_nat (String.length fr))) in
        Some (if neg then PrimFloat.opp q else q)
    end.

Definition leap (y : Z) : bool :=
  (y mod 4 =? 0) && (negb (y mod 100 =? 0) || (y mod 400 =? 0)).

Definition daysIn (y m : Z) : Z :=
  if m =? 2 then (if leap y then 29 else 28)
  else if (m =? 4) || (m =? 6) || (m =? 9) || (m =? 11) then 30 else 31.

Definition num (s : string) (from len : nat) : option Z :=
  let t := String.substring from len s in
  if (String.length t =? len)%nat then json.parseDigits 0 t else None.

(** A timestamp [2006-01-02T15:04:05Z]. *)
Definition ParseTime (s : string) : option time.Time :=
  if negb ((String.length s =? 20)%nat
           && String.eqb (String.substring 4 1 s) "-"
           && String.eqb (String.substring 7 1 s) "-"
           && String.eqb (String.substring 10 1 s) "T"
           && String.eqb (String.substring 13 1 s) ":"
           && String.eqb (String.substring 16 1 s) ":"
           && String.eqb (String.substring 19 1 s) "Z")
  then None
  else
    match num s 0 4, num s 5 2, num s 8 2, num s 11 2, num s 14 2, num s 17 2 with
    | Some y, Some mo, Some dd, Some h, Some mi, Some sec =>
        if (1 <=? mo) && (mo <=? 12) && (1 <=? dd) && (dd <=? daysIn y mo)
           && (h <? 24) && (mi <? 60) && (sec <? 60)
        then Some {| time.Year := y; time.Month := mo; time.Day := dd; time.Hour := h;
                     time.Minute := mi; time.Second := sec; time.Nanosecond := 0;
                     time.Offset := 0 |}
        else None
    | _, _, _, _, _, _ => None
    end.

End reference.

(** ** Notions the properties are stated with *)

(** The Go field of [SimpleObservation] a JSON key is decoded into. *)
Definition fieldOfKey (key : string) : option string :=
  json.fieldName <$> json.findField SimpleObservation.fields key.

(** The two coordinates of the summary observation. *)
Definition coordName (lat : bool) : string := if lat then "Latitude" else "Longitude".

Definition coord (lat : bool) (o : SimpleObservation.t) : float64 :=
  if lat then SimpleObservation.Latitude o else SimpleObservation.Longitude o.

Definition setCoord (lat : bool) (f : float64) (o : SimpleObservation.t)
    : SimpleObservation.t :=
  if lat then SimpleObservation.set_Latitude f o else SimpleObservation.set_Longitude f o.









(** The keys of the update body and of the create body. *)
Definition updateKeys : list string :=
  [ "species_guess"; "observed_on_string"; "description"; "latitude"; "longitude";
    "positional_accuracy"; "tag_list"; "geoprivacy" ].

Definition createKeys : list string :=
  [ "species_guess"; "observed_on_string"; "description"; "latitude"; "longitude";
    "positional_accuracy"; "tag_list"; "geoprivacy" ].

(** A client at [https://www.inaturalist.org] whose every call is
    answered by [resp]. *)
Definition answering (resp : Response) : Client :=
  {| buildUrl := fun format args =>
       "https://www.inaturalist.org" +:+ fmt.Sprintf_d format args;
     urlParses := fun _ => true;
     Do := fun _ => Some resp |}.

(** The parameters [GetObservations] can send. *)
Definition queryKeys : list string :=
  [ "page"; "per_page"; "swlng"; "swlat"; "nelng"; "nelat"; "order_by"; "order";
    "updated_since"; "has[]"; "on" ].

(** The characters an escaped query component is made of: the
    unreserved ones, and [%] and [+] of the escapes. *)
Definition escapedChar (c : ascii) : bool :=
  url.isAlnum c || existsb (Ascii.eqb c) (list_ascii_of_string "-_.~%+").

Definition escaped (s : string) : bool := forallb escapedChar (list_ascii_of_string s).

(** A string of ASCII characters only. *)
Definition asciiOnly (s : string) : bool :=
  forallb (fun c => json.byteOf c <? 128) (list_ascii_of_string s).

(** A float [encoding/json] refuses: NaN or an infinity. *)
Definition unsupported (f : float64) : bool :=
  PrimFloat.is_nan f || PrimFloat.is_infinity f.

(** The members of the create body: all eight fields, in order, the
    strings as the encoder writes them. *)
Definition createMembers (o : AddObservationOpt.t) (observed : string)
    : list (string * json.JSON) :=
  [ ("species_guess", json.JString (json.toValidUTF8 (AddObservationOpt.SpeciesGuess o)));
    ("observed_on_string", json.JString observed);
    ("description", json.JString (json.toValidUTF8 (AddObservationOpt.Description o)));
    ("latitude", json.JNumber (json.formatFloat (AddObservationOpt.Latitude o)));
    ("longitude", json.JNumber (json.formatFloat (AddObservationOpt.Longitude o)));
    ("positional_accuracy", json.JNumber (strconv.Itoa (AddObservationOpt.PositionalAccuracy o)));
    ("tag_list", json.JString (json.toValidUTF8 (AddObservationOpt.Tags o)));
    ("geoprivacy", json.JString (json.toValidUTF8 (AddObservationOpt.GeoPrivacy o))) ].

(** The members of the update body: the fields that are not zero, in
    order. *)
Definition updateMembers (o : UpdateObservationOpt.t) (observed : option string)
    : list (string * json.JSON) :=
  (if String.eqb (UpdateObservationOpt.SpeciesGuess o) "" then []
   else [("species_guess", json.JString (json.toValidUTF8 (UpdateObservationOpt.SpeciesGuess o)))])
  ++ match observed with
     | Some text => [("observed_on_string", json.JString text)]
     | None => []
     end
  ++ (if String.eqb (UpdateObservationOpt.Description o) "" then []
      else [("description", json.JString (json.toValidUTF8 (UpdateObservationOpt.Description o)))])
  ++ (if PrimFloat.eqb (UpdateObservationOpt.Latitude o) 0 then []
      else [("latitude", json.JNumber (json.formatFloat (UpdateObservationOpt.Latitude o)))])
  ++ (if PrimFloat.eqb (UpdateObservationOpt.Longitude o) 0 then []
      else [("longitude", json.JNumber (json.formatFloat (UpdateObservationOpt.Longitude o)))])
  ++ (if UpdateObservationOpt.PositionalAccuracy o =? 0 then []
      else [("positional_accuracy",
             json.JNumber (strconv.Itoa (UpdateObservationOpt.PositionalAccuracy o)))])
  ++ (if String.eqb (UpdateObservationOpt.Tags o) "" then []
      else [("tag_list", json.JString (json.toValidUTF8 (UpdateObservationOpt.Tags o)))])
  ++ (if String.eqb (UpdateObservationOpt.GeoPrivacy o) "" then []
      else [("geoprivacy", json.JString (json.toValidUTF8 (UpdateObservationOpt.GeoPrivacy o)))]).

(** The integer fields of [SimpleObservation]: their width, their
    value and their assignment. *)
Definition intField (name : string)
    : option (Z * (SimpleObservation.t -> Z)
              * (Z -> SimpleObservation.t -> SimpleObservation.t)) :=
  if String.eqb name "Id"
  then Some (64, SimpleObservation.Id, SimpleObservation.set_Id)
  else if String.eqb name "UserId"
  then Some (64, SimpleObservation.UserId, SimpleObservation.set_UserId)
  else if String.eqb name "SiteId"
  then Some (64, SimpleObservation.SiteId, SimpleObservation.set_SiteId)
  else if String.eqb name "TaxonId"
  then Some (32, SimpleObservation.TaxonId, SimpleObservation.set_TaxonId)
  else if String.eqb name "PositionalAccuracy"
  then Some (32, SimpleObservation.PositionalAccuracy,
             SimpleObservation.set_PositionalAccuracy)
  else if String.eqb name "PublicPositionalAccuracy"
  then Some (32, SimpleObservation.PublicPositionalAccuracy,
             SimpleObservation.set_PublicPositionalAccuracy)
  else None.

(** The JSON keys of [SimpleObservation], as its tags name them. *)
Definition summaryKeys : list string :=
  [ "id"; "user_login"; "place_guess"; "species_guess"; "latitude"; "longitude";
    "created_at_utc"; "observed_on"; "observed_on_string"; "updated_at_utc";
    "taxon_id"; "user_id"; "site_id"; "time_zone"; "description"; "uri"; "uuid";
    "time_observed_at_utc"; "positional_accuracy"; "public_positional_accuracy" ].

(** A JSON value that is neither a string nor [null]. *)
Definition notStringOrNull (j : json.JSON) : bool :=
  match j with
  | json.JString _ | json.JNull => false
  | _ => true
  end.

(** * Properties *)

(** ** The query of [GetObservations] *)

(** A key set to one value shows in [Encode] as its escaped [key=value]
    piece. *)
Lemma segments_lookup (v : url.Values) (k x : string) :
  v !! k = Some [x] ->
  (url.QueryEscape k +:+ "=" +:+ url.QueryEscape x) ∈ url.segments v.
Proof.
  intros Hk. unfold url.segments.
  apply list_elem_of_bind. exists k. split.
  - rewrite Hk. simpl. apply list_elem_of_here.
  - unfold url.sortedKeys. rewrite merge_sort_Permutation.
    apply list_elem_of_fmap. exists (k, [x]). split; [done|].
    by apply elem_of_map_to_list.
Qed.

(** Decimal digits and the minus sign pass [QueryEscape] unchanged. *)
Lemma QueryEscape_uint (u : Decimal.uint) :
  url.QueryEscape (NilEmpty.string_of_uint u) = NilEmpty.string_of_uint u.
Proof. induction u; simpl; [done | by rewrite IHu ..]. Qed.

Lemma QueryEscape_Itoa (i : Z) : url.QueryEscape (strconv.Itoa i) = strconv.Itoa i.
Proof.
  unfold strconv.Itoa, NilZero.string_of_int, NilZero.string_of_uint.
  destruct (Z.to_int i) as [u|u]; destruct u; simpl; try done;
    by rewrite QueryEscape_uint.
Qed.

(** ** The shortest decimal of [%v] *)












(** ** The floats of [Prim2SF] *)



(** ** The shortest decimal of a finite float *)



Lemma pow10_split (k : Z) : 10 ^ Z.max k 0 = 10 ^ k * 10 ^ Z.max (- k) 0 \/ k < 0.
Proof. destruct (Z_lt_le_dec k 0); [by right|left].
  rewrite !Z.max_l, Z.max_r by lia. simpl. lia. Qed.







(** ** Decimal digits *)

Lemma parseDigits_acc (u : Decimal.uint) (acc : positive) :
  json.parseDigits (Z.pos acc) (NilEmpty.string_of_uint u)
  = Some (Z.pos (Pos.of_uint_acc u acc)).
Proof.
  revert acc. induction u; intros acc; simpl; [done | rewrite <- IHu; f_equal; lia ..].
Qed.

Lemma parseDigits_uint (u : Decimal.uint) :
  json.parseDigits 0 (NilEmpty.string_of_uint u) = Some (Z.of_N (Pos.of_uint u)).
Proof.
  induction u; simpl; [done | exact IHu | apply parseDigits_acc ..].
Qed.





(** ** Positional notation and the magnitude of the float *)







(** ** What a positional rendering denotes *)

















Section Query.

Import GetObservationsOpt.

Local Ltac lookups :=
  unfold GetObservations_values, url.Set_; simpl;
  repeat match goal with
         | |- context [match ?o with Some _ => _ | None => _ end] => is_var o; destruct o
         | |- context [if ?b then _ else _] => is_var b; destruct b
         end;
  by simplify_map_eq.

(** C8: with only page 2 and fifty per page set the query is
    [page=2&per_page=50] and nothing else, page and per-page being
    decimal integers whatever their values; with no option set, or no
    option structure at all, the URL is the plain endpoint. *)
Theorem C8_page_and_per_page :
  url.Encode (GetObservations_values
    {| PerPage := Some 50; Page := Some 2; Rectangle := None; On := None;
       UpdatedSince := None; OrderBy := None; OrderAscending := None;
       HasGeo := None |}) = "page=2&per_page=50"
  /\ (forall p pp : Z,
        url.segments (GetObservations_values
          {| PerPage := Some pp; Page := Some p; Rectangle := None; On := None;
             UpdatedSince := None; OrderBy := None; OrderAscending := None;
             HasGeo := None |})
        = [ "page=" +:+ strconv.Itoa p; "per_page=" +:+ strconv.Itoa pp ])
  /\ url.segments (GetObservations_values none) = []
  /\ (forall c, GetObservations_url c (Some none) = buildUrl c "/observations.json" [])
  /\ (forall c, GetObservations_url c None = buildUrl c "/observations.json" []).
Proof.
  split; [reflexivity|]. split; [|split; [reflexivity|split; reflexivity]].
  intros p pp. rewrite <- (QueryEscape_Itoa p), <- (QueryEscape_Itoa pp) at 1.
  reflexivity.
Qed.

(** C3: a sort field without a direction gives [order_by=<field>] and
    [order=desc]; a direction, set to true or false, gives [order=asc]
    or [order=desc] whether or not a sort field is set; without a sort
    field there is no [order_by] key, and ascending alone is the query
    [order=asc]. *)
Theorem C3_order_parameters :
  (forall pp p r on us hg (field : string),
      let v := GetObservations_values
                 {| PerPage := pp; Page := p; Rectangle := r; On := on;
                    UpdatedSince := us; OrderBy := Some field;
                    OrderAscending := None; HasGeo := hg |} in
      v !! "order_by" = Some [field] /\ v !! "order" = Some ["desc"]
      /\ ("order_by=" +:+ url.QueryEscape field) ∈ url.segments v
      /\ "order=desc" ∈ url.segments v)
  /\ (forall pp p r on us hg ob (asc : bool),
      let v := GetObservations_values
                 {| PerPage := pp; Page := p; Rectangle := r; On := on;
                    UpdatedSince := us; OrderBy := ob;
                    OrderAscending := Some asc; HasGeo := hg |} in
      v !! "order" = Some [if asc then "asc" else "desc"]
      /\ ("order=" +:+ (if asc then "asc" else "desc")) ∈ url.segments v)
  /\ (forall pp p r on us hg oa,
      GetObservations_values
        {| PerPage := pp; Page := p; Rectangle := r; On := on;
           UpdatedSince := us; OrderBy := None;
           OrderAscending := oa; HasGeo := hg |} !! "order_by" = None)
  /\ url.Encode (GetObservations_values
       {| PerPage := None; Page := None; Rectangle := None; On := None;
          UpdatedSince := None; OrderBy := None; OrderAscending := Some true;
          HasGeo := None |}) = "order=asc".
Proof.
  split; [|split; [|split; [|reflexivity]]].
  - intros pp p r on us hg field v.
    assert (H1 : v !! "order_by" = Some [field]) by (subst v; lookups).
    assert (H2 : v !! "order" = Some ["desc"]) by (subst v; lookups).
    split; [done|]. split; [done|]. split.
    + apply (segments_lookup _ _ _ H1).
    + apply (segments_lookup _ _ _ H2).
  - intros pp p r on us hg ob asc v.
    assert (H1 : v !! "order" = Some [if asc then "asc" else "desc"])
      by (subst v; lookups).
    split; [done|].
    pose proof (segments_lookup _ _ _ H1) as H2. by destruct asc.
  - intros. lookups.
Qed.

(** C7: with the has-geo filter set the query holds [has[]=geo], the
    same for true and for false; the two queries are equal. *)
Theorem C7_has_geo_marker :
  forall pp p r on us ob oa (b : bool),
    let v := GetObservations_values
               {| PerPage := pp; Page := p; Rectangle := r; On := on;
                  UpdatedSince := us; OrderBy := ob; OrderAscending := oa;
                  HasGeo := Some b |} in
    v !! "has[]" = Some ["geo"]
    /\ "has%5B%5D=geo" ∈ url.segments v
    /\ v = GetObservations_values
             {| PerPage := pp; Page := p; Rectangle := r; On := on;
                UpdatedSince := us; OrderBy := ob; OrderAscending := oa;
                HasGeo := Some (negb b) |}.
Proof.
  intros pp p r on us ob oa b v.
  assert (H1 : v !! "has[]" = Some ["geo"]) by (subst v; lookups).
  split; [done|]. split; [|reflexivity].
  apply (segments_lookup _ _ _ H1).
Qed.




End Query.

(** ** The bodies of [AddObservation] and [UpdateObservation] *)

(** The keys of a body are the keys of the fields that are kept, in
    declaration order. *)
Lemma encodeFields_keys (fs : list json.Field) (ms : list (string * json.JSON)) :
  json.encodeFields fs = Some ms ->
  ms.*1 = json.keyOf <$> List.filter json.kept fs.
Proof.
  revert ms. induction fs as [|f fs IH]; intros ms H; simpl in *.
  - by inversion H.
  - unfold json.kept at 1.
    destruct (String.eqb (json.tag f) "-"); simpl; [by apply IH|].
    destruct (json.Contains _ _ && json.isEmptyValue _); simpl; [by apply IH|].
    destruct (json.encodeValue (json.value f)); [|done].
    destruct (json.encodeFields fs) as [ms'|]; [|done].
    inversion H; subst. simpl. f_equal. by apply IH.
Qed.

Lemma Marshal_keys (fs : list json.Field) (body : json.JSON) :
  json.Marshal fs = Some body ->
  json.keys body = json.keyOf <$> List.filter json.kept fs.
Proof.
  unfold json.Marshal. intros H.
  destruct (json.encodeFields fs) as [ms|] eqn:E; [|done].
  inversion H; subst. simpl. by apply encodeFields_keys.
Qed.

Lemma hasKey_spec (k : string) (fs : list json.Field) :
  k ∈ json.keyOf <$> List.filter json.kept fs <-> json.hasKey k fs = true.
Proof.
  unfold json.hasKey. rewrite existsb_exists, list_elem_of_fmap. split.
  - intros (f & -> & Hf). apply list_elem_of_In, filter_In in Hf as [Hin Hk].
    exists f. split; [done|]. rewrite Hk. simpl. apply String.eqb_refl.
  - intros (f & Hin & Hf). apply andb_true_iff in Hf as [Hk He].
    apply String.eqb_eq in He. exists f. split; [done|].
    apply list_elem_of_In, filter_In. done.
Qed.

Section Bodies.

(** Evaluate what the tags alone decide. *)
Local Ltac key_table :=
  unfold json.kept; cbn [existsb json.tag json.value];
  repeat match goal with
         | |- context [json.keyOf ?f] =>
             let r := eval vm_compute in (json.keyOf f) in change (json.keyOf f) with r
         | |- context [json.Contains ?a ?b] =>
             let r := eval vm_compute in (json.Contains a b) in
             change (json.Contains a b) with r
         end;
  cbn [String.eqb Ascii.eqb Bool.eqb negb andb orb json.isEmptyValue];
  rewrite ?andb_false_r, ?andb_true_r, ?orb_false_r, ?orb_false_l.

(** C2, as the code has it: a key is in the body exactly when its field
    does not hold the zero value of its type (the empty string, zero,
    the nil pointer), whether the caller left the field alone or
    assigned that value; only the observation time, a pointer, tells
    set from unset. *)
Theorem C2_update_body_keys (o : UpdateObservationOpt.t) (body : json.JSON) :
  json.Marshal (UpdateObservationOpt.fields o) = Some body ->
  ("species_guess" ∈ json.keys body <-> UpdateObservationOpt.SpeciesGuess o <> "")
  /\ ("observed_on_string" ∈ json.keys body
      <-> UpdateObservationOpt.ObservedOnString o <> None)
  /\ ("description" ∈ json.keys body <-> UpdateObservationOpt.Description o <> "")
  /\ ("latitude" ∈ json.keys body
      <-> PrimFloat.eqb (UpdateObservationOpt.Latitude o) 0 = false)
  /\ ("longitude" ∈ json.keys body
      <-> PrimFloat.eqb (UpdateObservationOpt.Longitude o) 0 = false)
  /\ ("positional_accuracy" ∈ json.keys body
      <-> UpdateObservationOpt.PositionalAccuracy o <> 0)
  /\ ("tag_list" ∈ json.keys body <-> UpdateObservationOpt.Tags o <> "")
  /\ ("geoprivacy" ∈ json.keys body <-> UpdateObservationOpt.GeoPrivacy o <> "").
Proof.
  intros H. rewrite (Marshal_keys _ _ H). rewrite !hasKey_spec.
  unfold json.hasKey, UpdateObservationOpt.fields.
  key_table. rewrite !negb_true_iff, !String.eqb_neq, Z.eqb_neq.
  repeat split; try done; destruct (UpdateObservationOpt.ObservedOnString o); done.
Qed.

(** C2 at an update that sets a species and a time and nothing else. *)
Lemma C2_update_body_keys_witness :
  let o := {| UpdateObservationOpt.Id := 7;
              UpdateObservationOpt.SpeciesGuess := "Quercus";
              UpdateObservationOpt.ObservedOnString := Some time.zero;
              UpdateObservationOpt.Description := "";
              UpdateObservationOpt.Latitude := 0%float;
              UpdateObservationOpt.Longitude := 0%float;
              UpdateObservationOpt.PositionalAccuracy := 0;
              UpdateObservationOpt.Tags := "";
              UpdateObservationOpt.GeoPrivacy := "" |} in
  let body := json.JObject
                [ ("species_guess", json.JString "Quercus");
                  ("observed_on_string", json.JString "0001-01-01T00:00:00Z") ] in
  json.Marshal (UpdateObservationOpt.fields o) = Some body
  /\ ("species_guess" ∈ json.keys body <-> UpdateObservationOpt.SpeciesGuess o <> "")
  /\ ("tag_list" ∈ json.keys body <-> UpdateObservationOpt.Tags o <> "").
Proof.
  intros o body.
  assert (H : json.Marshal (UpdateObservationOpt.fields o) = Some body)
    by (vm_compute; reflexivity).
  split; [exact H|].
  pose proof (C2_update_body_keys o body H) as (H1 & _ & _ & _ & _ & _ & H7 & _).
  split; assumption.
Defined.

(** C2 as stated fails: with the tags assigned the empty string and the
    latitude assigned 0 the body has neither [tag_list] nor
    [latitude]. *)
Lemma C2_zero_value_is_omitted :
  let o := {| UpdateObservationOpt.Id := 7;
              UpdateObservationOpt.SpeciesGuess := "Quercus";
              UpdateObservationOpt.ObservedOnString := None;
              UpdateObservationOpt.Description := "";
              UpdateObservationOpt.Latitude := 0%float;
              UpdateObservationOpt.Longitude := 0%float;
              UpdateObservationOpt.PositionalAccuracy := 0;
              UpdateObservationOpt.Tags := "";
              UpdateObservationOpt.GeoPrivacy := "" |} in
  json.Marshal (UpdateObservationOpt.fields o)
    = Some (json.JObject [ ("species_guess", json.JString "Quercus") ])
  /\ ~ (forall body, json.Marshal (UpdateObservationOpt.fields o) = Some body ->
          "tag_list" ∈ json.keys body /\ "latitude" ∈ json.keys body).
Proof.
  intros o.
  assert (H : json.Marshal (UpdateObservationOpt.fields o)
              = Some (json.JObject [ ("species_guess", json.JString "Quercus") ]))
    by (vm_compute; reflexivity).
  split; [exact H|].
  intros Hc. destruct (Hc _ H) as [Ht _]. simpl in Ht.
  apply list_elem_of_singleton in Ht. discriminate Ht.
Qed.

(** C9: the body does not depend on the id, no key of the body stands
    for it, and the id is in the path of the request. *)
Theorem C9_id_only_in_path :
  (forall (o : UpdateObservationOpt.t) (id : Z),
      json.Marshal (UpdateObservationOpt.fields (UpdateObservationOpt.set_Id id o))
      = json.Marshal (UpdateObservationOpt.fields o))
  /\ (forall o : UpdateObservationOpt.t,
      match json.Marshal (UpdateObservationOpt.fields o) with
      | Some body => json.keys body ⊆ updateKeys
      | None => True
      end)
  /\ (forall (c : Client) (o : UpdateObservationOpt.t),
      match UpdateObservation_request c o with
      | Returns req =>
          URL req = buildUrl c "/observations/%d.json" [UpdateObservationOpt.Id o]
          /\ Body req = json.Marshal (UpdateObservationOpt.fields o)
      | _ => True
      end).
Proof.
  split; [|split].
  - intros o id. reflexivity.
  - intros o. destruct (json.Marshal _) as [body|] eqn:H; [|done].
    intros k Hk. rewrite (Marshal_keys _ _ H) in Hk.
    apply list_elem_of_fmap in Hk as (f & -> & Hf).
    apply list_elem_of_In, filter_In in Hf as [Hin Hkept].
    unfold UpdateObservationOpt.fields in Hin. simpl in Hin.
    repeat (destruct Hin as [<-|Hin]; [first [discriminate Hkept | vm_compute; set_solver]|]).
    destruct Hin.
  - intros c o. unfold UpdateObservation_request, NewRequest.
    destruct (json.Marshal _); [|done].
    destruct (urlParses c _); [|done]. simpl. done.
Qed.

(** C10: whenever the create options serialize, the body has all eight
    keys, in declaration order; so it does for the zero options, with
    [observed_on_string] the zero time; [omit_empty] is not the
    [omitempty] option. *)
Theorem C10_create_body_keys :
  (forall o : AddObservationOpt.t,
      match json.Marshal (AddObservationOpt.fields o) with
      | Some body => json.keys body = createKeys
      | None => True
      end)
  /\ json.Marshal (AddObservationOpt.fields AddObservationOpt.zero)
     = Some (json.JObject
         [ ("species_guess", json.JString "");
           ("observed_on_string", json.JString "0001-01-01T00:00:00Z");
           ("description", json.JString "");
           ("latitude", json.JNumber "0"); ("longitude", json.JNumber "0");
           ("positional_accuracy", json.JNumber "0");
           ("tag_list", json.JString ""); ("geoprivacy", json.JString "") ])
  /\ json.Contains (json.tagOptions "observed_on_string,omit_empty") "omitempty" = false.
Proof.
  split; [|split; vm_compute; reflexivity].
  intros o. destruct (json.Marshal _) as [body|] eqn:H; [|done].
  rewrite (Marshal_keys _ _ H). reflexivity.
Qed.

End Bodies.

(** ** Decoding the summary observation *)

Lemma findField_In {S : Type} (fs : list (json.Lens S)) (k : string) (l : json.Lens S) :
  json.findField fs k = Some l -> In l fs.
Proof.
  unfold json.findField. intros H.
  destruct (find _ _) as [l'|] eqn:E.
  - inversion H; subst. apply find_some in E as [E _]. by apply filter_In in E as [E _].
  - apply find_some in H as [H _]. by apply filter_In in H as [H _].
Qed.

Section DecodeFacts.

Variable ParseFloat : string -> option float64.
Variable ParseTime : string -> option time.Time.

Local Abbreviation decodeMembers :=
  (json.decodeMembers ParseFloat ParseTime SimpleObservation.fields).

Lemma decodeMembers_cons k j ms (o : SimpleObservation.t) :
  decodeMembers ((k, j) :: ms) o
  = match json.findField SimpleObservation.fields k with
    | None => decodeMembers ms o
    | Some l =>
        match json.store ParseFloat ParseTime (json.quoted l (json.get l o)) (json.get l o) j with
        | None => None
        | Some v => decodeMembers ms (json.set l v o)
        end
    end.
Proof. reflexivity. Qed.

Lemma decodeMembers_app ms1 ms2 (o : SimpleObservation.t) :
  decodeMembers (ms1 ++ ms2) o
  = match decodeMembers ms1 o with
    | Some o1 => decodeMembers ms2 o1
    | None => None
    end.
Proof.
  revert o. induction ms1 as [|[k j] ms1 IH]; intros o; [done|].
  rewrite <- app_comm_cons, !decodeMembers_cons.
  destruct (json.findField _ k) as [l|]; [|apply IH].
  destruct (json.store _ _ _ _ _); [apply IH|done].
Qed.

(** The field a key finds is one of the twenty; a coordinate is found
    by its name, is a float under the [string] option, and is what its
    assignment sets. *)
Lemma coordinate_lens (lat : bool) (l : json.Lens SimpleObservation.t) :
  In l SimpleObservation.fields ->
  json.fieldName l = coordName lat ->
  (forall v, json.quoted l (json.VFloat64 v) = true)
  /\ (forall o, json.get l o = json.VFloat64 (coord lat o))
  /\ (forall f o, coord lat (json.set l (json.VFloat64 f) o) = f)
  /\ (forall o, json.set l (json.VFloat64 (coord lat o)) o = o).
Proof.
  intros Hin Hname. unfold SimpleObservation.fields in Hin. simpl in Hin.
  repeat (destruct Hin as [<-|Hin];
          [destruct lat; first [discriminate Hname
                               | repeat split; try done; by intros []]|]).
  destruct Hin.
Qed.

(** Assigning any other field leaves a coordinate as it is. *)
Lemma other_lens (lat : bool) (l : json.Lens SimpleObservation.t) :
  In l SimpleObservation.fields ->
  json.fieldName l <> coordName lat ->
  forall v o, coord lat (json.set l v o) = coord lat o.
Proof.
  intros Hin Hname v o. unfold SimpleObservation.fields in Hin. simpl in Hin.
  repeat (destruct Hin as [<-|Hin];
          [destruct lat; first [by destruct Hname | by destruct v]|]).
  destruct Hin.
Qed.

Lemma fieldOfKey_Some (key name : string) :
  fieldOfKey key = Some name ->
  exists l, json.findField SimpleObservation.fields key = Some l
            /\ In l SimpleObservation.fields /\ json.fieldName l = name.
Proof.
  unfold fieldOfKey. destruct (json.findField _ key) as [l|] eqn:E; [|done].
  intros H. injection H as H. exists l. split; [done|]. split; [|done].
  by apply findField_In in E.
Qed.

Lemma decodeMembers_other (lat : bool) ms (o o' : SimpleObservation.t) :
  Forall (fun m => fieldOfKey m.1 <> Some (coordName lat)) ms ->
  decodeMembers ms o = Some o' ->
  coord lat o' = coord lat o.
Proof.
  intros Hms. revert o. induction Hms as [|[k j] ms Hk _ IH]; intros o H.
  - by inversion H.
  - rewrite decodeMembers_cons in H. unfold fieldOfKey in Hk. cbn [fst] in Hk.
    destruct (json.findField _ k) as [l|] eqn:E; [|by apply IH].
    destruct (json.store _ _ _ _ _) as [v|]; [|done].
    rewrite (IH _ H). apply other_lens; [by apply findField_In in E|].
    intros Hn. apply Hk. by rewrite <- Hn.
Qed.

(** The assignment to a coordinate field is [setCoord]. *)
Lemma coordinate_set (lat : bool) (l : json.Lens SimpleObservation.t) :
  In l SimpleObservation.fields ->
  json.fieldName l = coordName lat ->
  forall f o, json.set l (json.VFloat64 f) o = setCoord lat f o.
Proof.
  intros Hin Hname. unfold SimpleObservation.fields in Hin. simpl in Hin.
  repeat (destruct Hin as [<-|Hin];
          [destruct lat; first [discriminate Hname | done]|]).
  destruct Hin.
Qed.

(** What a coordinate member does to the struct being decoded. *)
Lemma decode_coordinate_member (lat : bool) key (s : string) ms (o : SimpleObservation.t) :
  fieldOfKey key = Some (coordName lat) ->
  exists l,
    In l SimpleObservation.fields /\ json.fieldName l = coordName lat
    /\ decodeMembers ((key, json.JString s) :: ms) o
       = match json.storeQuoted ParseFloat (json.VFloat64 (coord lat o)) s with
         | Some v => decodeMembers ms (json.set l v o)
         | None => None
         end.
Proof.
  intros Hk. apply fieldOfKey_Some in Hk as (l & E & Hin & Hname).
  exists l. split; [done|]. split; [done|].
  rewrite decodeMembers_cons, E.
  destruct (coordinate_lens lat l Hin Hname) as (Hq & Hget & _).
  rewrite Hget, Hq. reflexivity.
Qed.

End DecodeFacts.

(** C5, as the code has it: under a key that names the latitude or the
    longitude, a string other than [null] is handed to [ParseFloat].
    When [ParseFloat] reads it, the member sets the coordinate to the
    value read and the decode goes on with the members after it: the
    object decodes whenever the members before and after do, and the
    coordinate of the result is the value read when no later member
    names the field again.  When [ParseFloat] refuses it, the whole
    decode fails.  The string [null] is no number and yet is accepted:
    it counts for nothing. *)
Theorem C5_coordinate_strings
    (ParseFloat : string -> option float64) (ParseTime : string -> option time.Time)
    (lat : bool) (ms1 ms2 : list (string * json.JSON)) (key s : string) :
  fieldOfKey key = Some (coordName lat) ->
  let decode := decodeSimpleObservation ParseFloat ParseTime in
  (forall f,
      s <> "null" -> ParseFloat s = Some f ->
      decode (json.JObject (ms1 ++ (key, json.JString s) :: ms2))
      = decode (json.JObject ms1)
          ≫= (fun o1 => json.decodeMembers ParseFloat ParseTime SimpleObservation.fields
                          ms2 (setCoord lat f o1))
      /\ decode (json.JObject (ms1 ++ [(key, json.JString s)]))
         = setCoord lat f <$> decode (json.JObject ms1)
      /\ (forall o, coord lat (setCoord lat f o) = f)
      /\ (forall o,
            Forall (fun m => fieldOfKey m.1 <> Some (coordName lat)) ms2 ->
            decode (json.JObject (ms1 ++ (key, json.JString s) :: ms2)) = Some o ->
            coord lat o = f))
  /\ (s <> "null" -> ParseFloat s = None ->
      decode (json.JObject (ms1 ++ (key, json.JString s) :: ms2)) = None)
  /\ decode (json.JObject (ms1 ++ (key, json.JString "null") :: ms2))
     = decode (json.JObject (ms1 ++ ms2)).
Proof.
  intros Hkey decode. subst decode.
  assert (Hstep : forall s' o1,
             json.decodeMembers ParseFloat ParseTime SimpleObservation.fields
               ((key, json.JString s') :: ms2) o1
             = match json.storeQuoted ParseFloat (json.VFloat64 (coord lat o1)) s' with
               | Some (json.VFloat64 f) =>
                   json.decodeMembers ParseFloat ParseTime SimpleObservation.fields
                     ms2 (setCoord lat f o1)
               | Some _ => None
               | None => None
               end).
  { intros s' o1.
    destruct (decode_coordinate_member ParseFloat ParseTime lat key s' ms2 o1 Hkey)
      as (l & Hin & Hname & ->).
    unfold json.storeQuoted.
    destruct (coordinate_lens lat l Hin Hname) as (_ & _ & _ & Hid).
    destruct (String.eqb s' "null").
    - by rewrite Hid, <- (coordinate_set lat l Hin Hname), Hid.
    - destruct (ParseFloat s') as [f|]; [|done].
      cbn [fmap option_fmap option_map]. by rewrite (coordinate_set lat l Hin Hname). }
  assert (Hset : forall f o, coord lat (setCoord lat f o) = f)
    by (intros f o; by destruct lat).
  assert (Hid : forall o, setCoord lat (coord lat o) o = o)
    by (intros o; by destruct lat, o).
  unfold decodeSimpleObservation, json.decodeStruct.
  split; [|split].
  - intros f Hnull Hf. apply String.eqb_neq in Hnull.
    assert (Hone : forall o1,
               json.decodeMembers ParseFloat ParseTime SimpleObservation.fields
                 ((key, json.JString s) :: ms2) o1
               = json.decodeMembers ParseFloat ParseTime SimpleObservation.fields
                   ms2 (setCoord lat f o1)).
    { intros o1. rewrite Hstep. unfold json.storeQuoted. by rewrite Hnull, Hf. }
    split; [|split; [|split]].
    + rewrite decodeMembers_app.
      destruct (json.decodeMembers _ _ _ ms1 _) as [o1|]; [|done]. apply Hone.
    + rewrite decodeMembers_app.
      destruct (json.decodeMembers _ _ _ ms1 _) as [o1|]; [|done].
      destruct (decode_coordinate_member ParseFloat ParseTime lat key s [] o1 Hkey)
        as (l & Hin & Hname & ->).
      unfold json.storeQuoted. rewrite Hnull, Hf.
      cbn [fmap option_fmap option_map json.decodeMembers].
      by rewrite (coordinate_set lat l Hin Hname).
    + exact (Hset f).
    + intros o Hms2 H. rewrite decodeMembers_app in H.
      destruct (json.decodeMembers _ _ _ ms1 _) as [o1|]; [|done].
      rewrite Hone in H.
      rewrite (decodeMembers_other _ _ lat _ _ _ Hms2 H). apply Hset.
  - intros Hnull Hbad. apply String.eqb_neq in Hnull.
    rewrite decodeMembers_app.
    destruct (json.decodeMembers _ _ _ ms1 _) as [o1|]; [|done].
    rewrite Hstep. unfold json.storeQuoted. by rewrite Hnull, Hbad.
  - rewrite !decodeMembers_app.
    destruct (json.decodeMembers _ _ _ ms1 _) as [o1|]; [|done].
    rewrite Hstep. unfold json.storeQuoted. cbn [String.eqb Ascii.eqb Bool.eqb].
    by rewrite Hid.
Qed.

(** C5 at [{"id": 12, "latitude": "37.5"}] and at a longitude west of
    Greenwich: the coordinates are 37.5 and -122.25. *)
Lemma C5_coordinate_strings_witness :
  let decode := decodeSimpleObservation reference.ParseFloat reference.ParseTime in
  fieldOfKey "latitude" = Some (coordName true)
  /\ fieldOfKey "longitude" = Some (coordName false)
  /\ reference.ParseFloat "37.5" = Some 37.5%float
  /\ reference.ParseFloat "-122.25" = Some (-122.25)%float
  /\ decode (json.JObject [ ("id", json.JNumber "12"); ("latitude", json.JString "37.5") ])
     = Some (SimpleObservation.set_Latitude 37.5%float
               (SimpleObservation.set_Id 12 SimpleObservation.zero))
  /\ decode (json.JObject [ ("longitude", json.JString "-122.25") ])
     = Some (SimpleObservation.set_Longitude (-122.25)%float SimpleObservation.zero)
  /\ decode (json.JObject [ ("latitude", json.JString "north") ]) = None.
Proof.
  intros decode.
  assert (Hlat : fieldOfKey "latitude" = Some (coordName true))
    by (vm_compute; reflexivity).
  assert (Hlng : fieldOfKey "longitude" = Some (coordName false))
    by (vm_compute; reflexivity).
  assert (H1 : reference.ParseFloat "37.5" = Some 37.5%float)
    by (vm_compute; reflexivity).
  assert (H2 : reference.ParseFloat "-122.25" = Some (-122.25)%float)
    by (vm_compute; reflexivity).
  assert (N1 : "37.5" <> "null") by discriminate.
  assert (N2 : "-122.25" <> "null") by discriminate.
  assert (N3 : "north" <> "null") by discriminate.
  repeat (split; [assumption|]). split; [|split].
  - eapply eq_trans;
      [exact (proj1 (proj2 (proj1
                (C5_coordinate_strings reference.ParseFloat reference.ParseTime true
                   [ ("id", json.JNumber "12") ] [] "latitude" "37.5" Hlat)
                37.5%float N1 H1)))|reflexivity].
  - eapply eq_trans;
      [exact (proj1 (proj2 (proj1
                (C5_coordinate_strings reference.ParseFloat reference.ParseTime false
                   [] [] "longitude" "-122.25" Hlng)
                (-122.25)%float N2 H2)))|reflexivity].
  - exact (proj1 (proj2
             (C5_coordinate_strings reference.ParseFloat reference.ParseTime true
                [] [] "latitude" "north" Hlat)) N3 eq_refl).
Defined.

(** C5 as stated fails: [null] is no number, and a latitude that is the
    string [null] does not fail the decode. *)
Lemma C5_null_string_accepted :
  reference.ParseFloat "null" = None
  /\ decodeSimpleObservation reference.ParseFloat reference.ParseTime
       (json.JObject [ ("latitude", json.JString "null") ]) = Some SimpleObservation.zero
  /\ ~ (forall s, reference.ParseFloat s = None ->
          decodeSimpleObservation reference.ParseFloat reference.ParseTime
            (json.JObject [ ("latitude", json.JString s) ]) = None).
Proof.
  assert (H : decodeSimpleObservation reference.ParseFloat reference.ParseTime
                (json.JObject [ ("latitude", json.JString "null") ])
              = Some SimpleObservation.zero) by (vm_compute; reflexivity).
  split; [vm_compute; reflexivity|]. split; [exact H|].
  intros Hc. specialize (Hc "null" eq_refl). rewrite H in Hc. discriminate Hc.
Qed.

(** ** The mutating operations *)

(** [AddObservation] returns the first element of a decoded array that
    has one. *)
Lemma AddObservation_first ParseFloat ParseTime (c : Client) (opt : AddObservationOpt.t)
    (req : Request) (resp : Response) (j : json.JSON)
    (first : option SimpleObservation.t) (others : list (option SimpleObservation.t)) :
  AddObservation_request c opt = Returns req ->
  Do c req = Some resp ->
  StatusCode resp = 201 ->
  Payload resp = Some j ->
  decodeSimpleObservations ParseFloat ParseTime j = Some (first :: others) ->
  AddObservation ParseFloat ParseTime c opt = Returns first.
Proof.
  intros Hreq Hdo Hst Hp Hdec. unfold AddObservation, execute.
  rewrite Hreq, Hdo, Hst, Hp, Hdec. reflexivity.
Qed.

(** [AddObservation] fails on any status but 201, with that status. *)
Lemma AddObservation_status ParseFloat ParseTime (c : Client) (opt : AddObservationOpt.t)
    (req : Request) (resp : Response) :
  AddObservation_request c opt = Returns req ->
  Do c req = Some resp ->
  StatusCode resp <> 201 ->
  AddObservation ParseFloat ParseTime c opt
  = Fails (UnexpectedStatusError (StatusCode resp)).
Proof.
  intros Hreq Hdo Hst. unfold AddObservation, execute.
  rewrite Hreq, Hdo. apply Z.eqb_neq in Hst. unfold StatusCreated. by rewrite Hst.
Qed.

(** C1 at status 201 with the body [[]]: the code does not fail with a
    [DecodeError], the index [result[0]] panics; so it does on the body
    [null]. *)
Theorem C1_empty_array_panics :
  forall ParseFloat ParseTime,
    AddObservation ParseFloat ParseTime
      (answering {| StatusCode := 201; Payload := Some (json.JArray []) |})
      AddObservationOpt.zero = Panics
    /\ AddObservation ParseFloat ParseTime
         (answering {| StatusCode := 201; Payload := Some json.JNull |})
         AddObservationOpt.zero = Panics.
Proof. intros. split; vm_compute; reflexivity. Qed.

(** C6: on a response to the DELETE request, any status but 201 is an
    [UnexpectedStatusError] with that status; on 201 the call returns
    without a value, whatever the body is, a body that is no JSON text
    included. *)
Theorem C6_delete_status (c : Client) (id : Z) (resp : Response) :
  urlParses c (buildUrl c "/observations/%d.json" [id]) = true ->
  Do c {| Method := "DELETE"; URL := buildUrl c "/observations/%d.json" [id];
          Body := None |} = Some resp ->
  (StatusCode resp <> 201 ->
   DeleteObservation c id = Fails (UnexpectedStatusError (StatusCode resp)))
  /\ (StatusCode resp = 201 -> DeleteObservation c id = Returns tt).
Proof.
  intros Hurl Hdo. unfold DeleteObservation, NewRequest, execute.
  rewrite Hurl, Hdo. unfold StatusCreated. split; intros Hst.
  - apply Z.eqb_neq in Hst. by rewrite Hst.
  - by rewrite Hst.
Qed.

(** C6 at a 404 and at a 201 whose body is no JSON text. *)
Lemma C6_delete_status_witness :
  DeleteObservation (answering {| StatusCode := 404; Payload := Some json.JNull |}) 7
    = Fails (UnexpectedStatusError 404)
  /\ DeleteObservation (answering {| StatusCode := 201; Payload := None |}) 7
     = Returns tt.
Proof.
  split.
  - refine (proj1 (C6_delete_status
                     (answering {| StatusCode := 404; Payload := Some json.JNull |}) 7
                     {| StatusCode := 404; Payload := Some json.JNull |} _ _) _).
    + reflexivity.
    + reflexivity.
    + simpl. lia.
  - refine (proj2 (C6_delete_status
                     (answering {| StatusCode := 201; Payload := None |}) 7
                     {| StatusCode := 201; Payload := None |} _ _) _).
    + reflexivity.
    + reflexivity.
    + reflexivity.
Defined.

(** * Further properties *)

(** ** Decimal integers: [Itoa] and [ParseInt] *)

(** What [Itoa] writes, [ParseInt] reads back. *)
Lemma ParseInt_Itoa (i : Z) :
  - 2 ^ 63 <= i < 2 ^ 63 -> json.ParseInt (strconv.Itoa i) = Some i.
Proof.
  intros Hi.
  assert (Hr : (- 2 ^ 63 <=? i) && (i <? 2 ^ 63) = true).
  { apply andb_true_iff. split; [apply Z.leb_le|apply Z.ltb_lt]; lia. }
  unfold strconv.Itoa.
  destruct i as [|p|p]; [done| |]; unfold Z.to_int, NilZero.string_of_int;
    pose proof (DecimalPos.Unsigned.of_to p) as Hp;
    pose proof (parseDigits_uint (Pos.to_uint p)) as Hd; rewrite Hp in Hd;
    (destruct (Pos.to_uint p) as [|u|u|u|u|u|u|u|u|u|u]; [discriminate Hp|..]);
    unfold json.ParseInt, NilZero.string_of_uint;
    cbn [NilEmpty.string_of_uint Ascii.eqb Bool.eqb orb andb String.eqb];
    cbn [NilEmpty.string_of_uint] in Hd; rewrite Hd;
    cbn [Z.of_N]; change (- Z.pos p) with (Z.neg p); rewrite Hr; reflexivity.
Qed.

(** ** More on the query of [GetObservations] *)

(** Every piece of [Encode] is an escaped key, [=], and an escaped value
    of that key. *)
Lemma segments_elem (v : url.Values) (seg : string) :
  seg ∈ url.segments v ->
  exists k xs x, v !! k = Some xs /\ x ∈ xs
                 /\ seg = url.QueryEscape k +:+ "=" +:+ url.QueryEscape x.
Proof.
  unfold url.segments. intros H.
  apply list_elem_of_bind in H as (k & Hseg & Hk).
  apply list_elem_of_fmap in Hseg as (x & -> & Hx).
  destruct (v !! k) as [xs|] eqn:E; simpl in Hx; [|by apply elem_of_nil in Hx].
  by exists k, xs, x.
Qed.

Lemma escaped_app (a b : string) : escaped (a +:+ b) = escaped a && escaped b.
Proof.
  unfold escaped. induction a as [|c a IH]; simpl; [done|].
  by rewrite IH, andb_assoc.
Qed.

Lemma QueryEscape_escaped (s : string) : escaped (url.QueryEscape s) = true.
Proof.
  unfold escaped. induction s as [|c s IH]; [done|].
  destruct c as [[] [] [] [] [] [] [] []]; exact IH.
Qed.

Lemma append_empty (a b : string) : a +:+ b = "" -> a = "" /\ b = "".
Proof. destruct a; [done|discriminate]. Qed.

Lemma concat_empty (sep : string) (l : list string) :
  String.concat sep l = "" -> forall s, s ∈ l -> s = "".
Proof.
  induction l as [|a l IH]; intros H s Hin; [by apply elem_of_nil in Hin|].
  destruct l as [|b l].
  - apply list_elem_of_singleton in Hin. by subst.
  - simpl in H. apply append_empty in H as [-> H]. apply append_empty in H as [_ H].
    apply elem_of_cons in Hin as [->|Hin]; [done|]. by apply IH.
Qed.

Lemma Encode_set_nonempty (k x : string) (v : url.Values) :
  url.Encode (url.Set_ k x v) <> "".
Proof.
  intros H. unfold url.Encode in H.
  pose proof (segments_lookup (url.Set_ k x v) k x (lookup_insert_eq _ _ _)) as Hin.
  pose proof (concat_empty _ _ H _ Hin) as He.
  apply append_empty in He as [_ He]. discriminate He.
Qed.

Lemma QueryEscape_app (a b : string) :
  url.QueryEscape (a +:+ b) = url.QueryEscape a +:+ url.QueryEscape b.
Proof.
  induction a as [|c a IH]; [done|]. simpl.
  destruct (Ascii.eqb c " "); [by rewrite IH|].
  destruct (url.shouldEscape c); by rewrite IH.
Qed.

Lemma QueryEscape_zeros (n : nat) : url.QueryEscape (strconv.zeros n) = strconv.zeros n.
Proof. induction n; [done|]. simpl. by rewrite IHn. Qed.

Lemma QueryEscape_appendInt (x : Z) (width : nat) :
  url.QueryEscape (time.appendInt x width) = time.appendInt x width.
Proof.
  unfold time.appendInt. rewrite !QueryEscape_app, QueryEscape_zeros.
  f_equal; [by destruct (x <? 0)|]. f_equal.
  unfold strconv.digitsOf, NilZero.string_of_uint.
  destruct (N.to_uint _); try done; apply QueryEscape_uint.
Qed.

(** The date of the [on] parameter has nothing to escape. *)
Lemma QueryEscape_formatDate (t : time.Time) :
  url.QueryEscape (time.formatDate t) = time.formatDate t.
Proof.
  unfold time.formatDate. by rewrite !QueryEscape_app, !QueryEscape_appendInt.
Qed.

Section QueryMore.

Import GetObservationsOpt.

Local Ltac options opt :=
  destruct opt as [pp p r on us ob oa hg];
  destruct r, ob as [ob|], oa as [[]|], pp, p, on, us, hg;
  lazy beta iota zeta
    delta [GetObservations_values PerPage Page Rectangle On UpdatedSince
           OrderBy OrderAscending HasGeo].

(** X1: the whole table of the query.  Page, per-page, the four
    corners, the sort field, updated-since, has-geo and the on-date each
    depend on their own option alone, whatever the others hold: the
    parameter is there exactly when the option is set, page and per-page
    in decimal, updated-since in RFC 3339, the date as [2006-01-02].
    The direction alone depends on two options: it is the one asked
    for, else [desc] when a sort field is set, else absent. *)
Theorem GetObservations_values_lookup (opt : GetObservationsOpt.t) :
  let v := GetObservations_values opt in
  v !! "page" = (fun p => [strconv.Itoa p]) <$> Page opt
  /\ v !! "per_page" = (fun p => [strconv.Itoa p]) <$> PerPage opt
  /\ v !! "swlng"
     = (fun r => [fmt.Sprintf_v (Location.Longitude (Rectangle.Southwest r))])
         <$> Rectangle opt
  /\ v !! "swlat"
     = (fun r => [fmt.Sprintf_v (Location.Latitude (Rectangle.Southwest r))])
         <$> Rectangle opt
  /\ v !! "nelng"
     = (fun r => [fmt.Sprintf_v (Location.Longitude (Rectangle.Northeast r))])
         <$> Rectangle opt
  /\ v !! "nelat"
     = (fun r => [fmt.Sprintf_v (Location.Latitude (Rectangle.Northeast r))])
         <$> Rectangle opt
  /\ v !! "order_by" = (fun field => [field]) <$> OrderBy opt
  /\ v !! "order"
     = match OrderAscending opt, OrderBy opt with
       | Some asc, _ => Some [if asc then "asc" else "desc"]
       | None, Some _ => Some ["desc"]
       | None, None => None
       end
  /\ v !! "updated_since" = (fun t => [time.formatRFC3339 t]) <$> UpdatedSince opt
  /\ v !! "has[]" = (fun _ => ["geo"]) <$> HasGeo opt
  /\ v !! "on" = (fun t => [time.formatDate t]) <$> On opt.
Proof.
  destruct opt as [pp p r on us ob oa hg].
  destruct r, ob as [ob|], oa as [[]|], pp, p, on, us, hg; repeat split; reflexivity.
Qed.

(** X2: the query never holds a parameter outside the eleven the
    function sets. *)
Theorem GetObservations_values_keys (opt : GetObservationsOpt.t) (k : string) :
  is_Some (GetObservations_values opt !! k) -> k ∈ queryKeys.
Proof.
  options opt;
    unfold url.Set_;
    repeat (rewrite lookup_insert; case_decide;
            [subst k; intros _; unfold queryKeys; by repeat constructor|]);
    rewrite lookup_empty; intros [x Hx]; discriminate Hx.
Qed.

(** X2 at the has-geo marker. *)
Lemma GetObservations_values_keys_witness :
  let opt := {| PerPage := None; Page := None; Rectangle := None; On := None;
                UpdatedSince := None; OrderBy := None; OrderAscending := None;
                HasGeo := Some false |} in
  is_Some (GetObservations_values opt !! "has[]") /\ "has[]" ∈ queryKeys.
Proof.
  intros opt.
  assert (H : is_Some (GetObservations_values opt !! "has[]")) by (by eexists).
  split; [exact H|]. exact (GetObservations_values_keys opt "has[]" H).
Defined.

(** X5: page, per-page and the on-date go into the query as they are
    written, no character of them escaped. *)
Theorem GetObservations_verbatim_pieces (opt : GetObservationsOpt.t) :
  (forall p, Page opt = Some p ->
     ("page=" +:+ strconv.Itoa p) ∈ url.segments (GetObservations_values opt))
  /\ (forall p, PerPage opt = Some p ->
     ("per_page=" +:+ strconv.Itoa p) ∈ url.segments (GetObservations_values opt))
  /\ (forall t, On opt = Some t ->
     ("on=" +:+ time.formatDate t) ∈ url.segments (GetObservations_values opt)).
Proof.
  assert (Hpage : GetObservations_values opt !! "page"
                  = (fun p => [strconv.Itoa p]) <$> Page opt).
  { destruct opt as [pp p r on us ob oa hg].
    destruct r, ob as [ob|], oa as [[]|], pp, p, on, us, hg; reflexivity. }
  assert (Hper : GetObservations_values opt !! "per_page"
                 = (fun p => [strconv.Itoa p]) <$> PerPage opt).
  { destruct opt as [pp p r on us ob oa hg].
    destruct r, ob as [ob|], oa as [[]|], pp, p, on, us, hg; reflexivity. }
  assert (Hon : GetObservations_values opt !! "on"
                = (fun t => [time.formatDate t]) <$> On opt).
  { destruct opt as [pp p r on us ob oa hg].
    destruct r, ob as [ob|], oa as [[]|], pp, p, on, us, hg; reflexivity. }
  split; [|split].
  - intros x Hx. rewrite Hx in Hpage.
    pose proof (segments_lookup _ _ _ Hpage) as H.
    by rewrite QueryEscape_Itoa in H.
  - intros x Hx. rewrite Hx in Hper.
    pose proof (segments_lookup _ _ _ Hper) as H.
    by rewrite QueryEscape_Itoa in H.
  - intros t Ht. rewrite Ht in Hon.
    pose proof (segments_lookup _ _ _ Hon) as H.
    by rewrite QueryEscape_formatDate in H.
Qed.

(** X5 at a page and a day. *)
Lemma GetObservations_verbatim_pieces_witness :
  let day := {| time.Year := 2017; time.Month := 3; time.Day := 4; time.Hour := 5;
                time.Minute := 6; time.Second := 7; time.Nanosecond := 0;
                time.Offset := 0 |} in
  let opt := {| PerPage := None; Page := Some 3; Rectangle := None; On := Some day;
                UpdatedSince := None; OrderBy := None; OrderAscending := None;
                HasGeo := None |} in
  url.Encode (GetObservations_values opt) = "on=2017-03-04&page=3"
  /\ "page=3" ∈ url.segments (GetObservations_values opt)
  /\ "on=2017-03-04" ∈ url.segments (GetObservations_values opt).
Proof.
  intros day opt. split; [vm_compute; reflexivity|].
  destruct (GetObservations_verbatim_pieces opt) as (Hp & _ & Ho).
  split; [exact (Hp 3 eq_refl)|exact (Ho day eq_refl)].
Defined.

(** X3: the URL has a query string exactly when some option is set:
    with every option nil it is the endpoint; otherwise it is the
    endpoint, [?], and a query that is not empty. *)
Theorem GetObservations_url_query (c : Client) (opt : GetObservationsOpt.t) :
  (opt = none ->
   GetObservations_url c (Some opt) = buildUrl c "/observations.json" [])
  /\ (opt <> none ->
      url.Encode (GetObservations_values opt) <> ""
      /\ GetObservations_url c (Some opt)
         = buildUrl c "/observations.json" [] +:+ "?"
             +:+ url.Encode (GetObservations_values opt)).
Proof.
  split.
  - intros ->. reflexivity.
  - intros Hne.
    assert (H : url.Encode (GetObservations_values opt) <> "").
    { options opt; first [apply Encode_set_nonempty | by destruct Hne]. }
    split; [done|]. unfold GetObservations_url.
    apply String.eqb_neq in H. by rewrite H.
Qed.

(** X3 at an option structure that only asks for geo-tagged records. *)
Lemma GetObservations_url_query_witness :
  let opt := {| PerPage := None; Page := None; Rectangle := None; On := None;
                UpdatedSince := None; OrderBy := None; OrderAscending := None;
                HasGeo := Some true |} in
  opt <> none
  /\ GetObservations_url (answering {| StatusCode := 200; Payload := None |}) (Some opt)
     = "https://www.inaturalist.org/observations.json?has%5B%5D=geo".
Proof.
  intros opt.
  assert (Hne : opt <> none) by discriminate.
  split; [exact Hne|].
  destruct (proj2 (GetObservations_url_query
                     (answering {| StatusCode := 200; Payload := None |}) opt) Hne)
    as [_ ->].
  vm_compute. reflexivity.
Defined.

(** X4: whatever the options hold, the sort field included, every piece
    of the query is [key=value] with key and value made only of
    unreserved characters and of the [%] and [+] of the escapes: no
    option can bring a [&], a [=] or a space of its own into the query. *)
Theorem GetObservations_query_escaped (opt : GetObservationsOpt.t) (seg : string) :
  seg ∈ url.segments (GetObservations_values opt) ->
  exists k x, seg = k +:+ "=" +:+ x /\ escaped k = true /\ escaped x = true.
Proof.
  intros H. apply segments_elem in H as (k & xs & x & _ & _ & ->).
  exists (url.QueryEscape k), (url.QueryEscape x).
  split; [done|]. split; apply QueryEscape_escaped.
Qed.

(** X4 at a sort field that tries to add a parameter. *)
Lemma GetObservations_query_escaped_witness :
  let opt := {| PerPage := None; Page := None; Rectangle := None; On := None;
                UpdatedSince := None; OrderBy := Some "id&page=9";
                OrderAscending := None; HasGeo := None |} in
  url.segments (GetObservations_values opt) = [ "order=desc"; "order_by=id%26page%3D9" ]
  /\ exists k x, "order_by=id%26page%3D9" = k +:+ "=" +:+ x
                 /\ escaped k = true /\ escaped x = true.
Proof.
  intros opt.
  assert (H : url.segments (GetObservations_values opt)
              = [ "order=desc"; "order_by=id%26page%3D9" ]) by (vm_compute; reflexivity).
  split; [exact H|].
  apply (GetObservations_query_escaped opt). rewrite H.
  apply list_elem_of_further, list_elem_of_here.
Defined.

End QueryMore.

(** ** Keys and the case of their letters *)

(** Where no two keys fold to the same name, the exact match is the
    match under case folding. *)
Lemma find_folded {A : Type} (key : A -> string) (l : list A) (k : string) :
  NoDup ((fun a => json.foldName (key a)) <$> l) ->
  match find (fun a => String.eqb (key a) k) l with
  | Some a => Some a
  | None => find (fun a => String.eqb (json.foldName (key a)) (json.foldName k)) l
  end
  = find (fun a => String.eqb (json.foldName (key a)) (json.foldName k)) l.
Proof.
  induction l as [|a l IH]; [done|]. rewrite fmap_cons. intros Hnd.
  apply NoDup_cons in Hnd as [Ha Hnd]. specialize (IH Hnd). cbn [find].
  destruct (String.eqb_spec (key a) k) as [->|Hk]; [by rewrite String.eqb_refl|].
  destruct (String.eqb_spec (json.foldName (key a)) (json.foldName k)) as [Hf|Hf]; [|done].
  destruct (find (fun a => String.eqb (key a) k) l) as [b|] eqn:E; [|done].
  apply find_some in E as [Hin Hb]. apply String.eqb_eq in Hb. subst k.
  destruct Ha. rewrite Hf. apply list_elem_of_fmap. exists b. split; [done|].
  by apply list_elem_of_In.
Qed.

(** No two keys of [SimpleObservation] fold to the same name. *)
Lemma SimpleObservation_keys_folded :
  NoDup ((fun l => json.foldName (json.lensKey l))
           <$> List.filter (fun l => negb (String.eqb (json.fieldTag l) "-"))
                 SimpleObservation.fields).
Proof.
  apply (bool_decide_unpack _). vm_compute. exact I.
Qed.

(** The field a key names depends on the key only up to the case of its
    letters. *)
Lemma findField_folded (key key' : string) :
  json.foldName key = json.foldName key' ->
  json.findField SimpleObservation.fields key
  = json.findField SimpleObservation.fields key'.
Proof.
  intros H. unfold json.findField. cbv zeta.
  rewrite !(find_folded json.lensKey _ _ SimpleObservation_keys_folded).
  by rewrite H.
Qed.

(** The keys of the fields are the keys of the tags. *)
Lemma SimpleObservation_keys :
  json.lensKey <$> List.filter (fun l => negb (String.eqb (json.fieldTag l) "-"))
                     SimpleObservation.fields
  = summaryKeys.
Proof. vm_compute. reflexivity. Qed.

(** A key names a field exactly when it folds to the name one of the
    twenty keys folds to. *)
Lemma fieldOfKey_folded (key : string) :
  (json.foldName key ∉ (json.foldName <$> summaryKeys) -> fieldOfKey key = None)
  /\ (json.foldName key ∈ (json.foldName <$> summaryKeys) -> is_Some (fieldOfKey key)).
Proof.
  unfold fieldOfKey, json.findField. cbv zeta.
  rewrite (find_folded json.lensKey _ _ SimpleObservation_keys_folded).
  rewrite <- SimpleObservation_keys, <- list_fmap_compose.
  set (named := List.filter _ SimpleObservation.fields).
  destruct (find _ named) as [l|] eqn:E.
  - apply find_some in E as [Hin Hl]. apply String.eqb_eq in Hl. split.
    + intros Hn. destruct Hn. apply list_elem_of_fmap. exists l.
      split; [done|]. by apply list_elem_of_In.
    + intros _. by eexists.
  - split; [done|]. intros Hin. apply list_elem_of_fmap in Hin as (l & Hl & Hin).
    apply list_elem_of_In in Hin.
    pose proof (find_none _ _ E l Hin) as Hn. cbv beta in Hn.
    unfold compose in Hl. rewrite <- Hl, String.eqb_refl in Hn. discriminate Hn.
Qed.

(** ** More on decoding the summary observation *)

Section DecodeMore.

Variable ParseFloat : string -> option float64.
Variable ParseTime : string -> option time.Time.

Local Abbreviation decodeMembers :=
  (json.decodeMembers ParseFloat ParseTime SimpleObservation.fields).
Local Abbreviation decode := (decodeSimpleObservation ParseFloat ParseTime).

(** No field of the struct is a pointer: [null] stores the value a
    field has, and storing that value changes nothing. *)
Lemma null_lens (l : json.Lens SimpleObservation.t) :
  In l SimpleObservation.fields ->
  forall o,
    json.store ParseFloat ParseTime (json.quoted l (json.get l o)) (json.get l o) json.JNull
    = Some (json.get l o)
    /\ json.set l (json.get l o) o = o.
Proof.
  intros Hin o. unfold SimpleObservation.fields in Hin. simpl in Hin.
  repeat (destruct Hin as [<-|Hin]; [by destruct o|]).
  destruct Hin.
Qed.

Lemma decodeMembers_null key ms (o : SimpleObservation.t) :
  decodeMembers ((key, json.JNull) :: ms) o = decodeMembers ms o.
Proof.
  rewrite decodeMembers_cons.
  destruct (json.findField _ key) as [l|] eqn:E; [|done].
  destruct (null_lens l (findField_In _ _ _ E) o) as [-> ->]. done.
Qed.

Lemma decodeMembers_unknown key j ms (o : SimpleObservation.t) :
  fieldOfKey key = None -> decodeMembers ((key, j) :: ms) o = decodeMembers ms o.
Proof.
  unfold fieldOfKey. intros H. rewrite decodeMembers_cons.
  by destruct (json.findField _ key).
Qed.

Lemma decodeMembers_unknown_piece (c : bool) key j (o : SimpleObservation.t) :
  fieldOfKey key = None ->
  decodeMembers (if c then [] else [(key, j)]) o = Some o.
Proof. intros H. destruct c; [done|]. by rewrite decodeMembers_unknown. Qed.

Lemma decodeMembers_app_skip front tail (o : SimpleObservation.t) :
  (forall o', decodeMembers tail o' = Some o') ->
  decodeMembers (front ++ tail) o = decodeMembers front o.
Proof.
  intros H. rewrite decodeMembers_app. by destruct (json.decodeMembers _ _ _ front _).
Qed.

(** X11: a member whose value is [null] counts for nothing, whatever its
    key: the decode is that of the object without it. *)
Theorem decode_null_member (ms1 ms2 : list (string * json.JSON)) (key : string) :
  decode (json.JObject (ms1 ++ (key, json.JNull) :: ms2))
  = decode (json.JObject (ms1 ++ ms2)).
Proof.
  unfold decodeSimpleObservation, json.decodeStruct.
  rewrite !decodeMembers_app.
  destruct (json.decodeMembers _ _ _ ms1 _); [|done]. apply decodeMembers_null.
Qed.

(** X12: a member whose key, under case folding, is none of the twenty
    keys of the struct is skipped, whatever its value; and every key
    that does fold to one of the twenty names a field. *)
Theorem decode_unknown_key (ms1 ms2 : list (string * json.JSON)) (key : string)
    (j : json.JSON) :
  (json.foldName key ∉ (json.foldName <$> summaryKeys) ->
   decode (json.JObject (ms1 ++ (key, j) :: ms2)) = decode (json.JObject (ms1 ++ ms2)))
  /\ (json.foldName key ∈ (json.foldName <$> summaryKeys) -> is_Some (fieldOfKey key)).
Proof.
  split; [|apply fieldOfKey_folded].
  intros H. apply fieldOfKey_folded in H.
  unfold decodeSimpleObservation, json.decodeStruct.
  rewrite !decodeMembers_app.
  destruct (json.decodeMembers _ _ _ ms1 _); [|done]. by apply decodeMembers_unknown.
Qed.

(** X13: a latitude or longitude that is a JSON number, boolean, array
    or object fails the whole decode: the coordinates come as strings. *)
Theorem decode_coordinate_needs_string (lat : bool)
    (ms1 ms2 : list (string * json.JSON)) (key : string) (j : json.JSON) :
  fieldOfKey key = Some (coordName lat) ->
  notStringOrNull j = true ->
  decode (json.JObject (ms1 ++ (key, j) :: ms2)) = None.
Proof.
  intros Hkey Hj. unfold decodeSimpleObservation, json.decodeStruct.
  rewrite decodeMembers_app.
  destruct (json.decodeMembers _ _ _ ms1 _) as [o1|]; [|done].
  apply fieldOfKey_Some in Hkey as (l & E & Hin & Hname).
  rewrite decodeMembers_cons, E.
  destruct (coordinate_lens lat l Hin Hname) as (Hq & Hget & _).
  rewrite Hget, Hq. by destruct j.
Qed.

Lemma intField_cases (name : string) (bits : Z) (proj : SimpleObservation.t -> Z)
    (assign : Z -> SimpleObservation.t -> SimpleObservation.t) :
  intField name = Some (bits, proj, assign) ->
  (name = "Id" /\ bits = 64 /\ proj = SimpleObservation.Id
   /\ assign = SimpleObservation.set_Id)
  \/ (name = "UserId" /\ bits = 64 /\ proj = SimpleObservation.UserId
      /\ assign = SimpleObservation.set_UserId)
  \/ (name = "SiteId" /\ bits = 64 /\ proj = SimpleObservation.SiteId
      /\ assign = SimpleObservation.set_SiteId)
  \/ (name = "TaxonId" /\ bits = 32 /\ proj = SimpleObservation.TaxonId
      /\ assign = SimpleObservation.set_TaxonId)
  \/ (name = "PositionalAccuracy" /\ bits = 32
      /\ proj = SimpleObservation.PositionalAccuracy
      /\ assign = SimpleObservation.set_PositionalAccuracy)
  \/ (name = "PublicPositionalAccuracy" /\ bits = 32
      /\ proj = SimpleObservation.PublicPositionalAccuracy
      /\ assign = SimpleObservation.set_PublicPositionalAccuracy).
Proof.
  unfold intField. intros H.
  repeat match type of H with
         | (if String.eqb ?a ?b then _ else _) = _ =>
             destruct (String.eqb_spec a b) as [->|_];
             [injection H as <- <- <-; tauto|]
         end.
  discriminate H.
Qed.

(** An integer field is found by its name, holds an integer of its
    width, does not carry the [string] option, and is what its
    assignment sets. *)
Lemma integer_lens (name : string) (bits : Z) (proj : SimpleObservation.t -> Z)
    (assign : Z -> SimpleObservation.t -> SimpleObservation.t)
    (l : json.Lens SimpleObservation.t) :
  intField name = Some (bits, proj, assign) ->
  In l SimpleObservation.fields ->
  json.fieldName l = name ->
  (forall n, json.quoted l (json.VInt bits n) = false)
  /\ (forall o, json.get l o = json.VInt bits (proj o))
  /\ (forall n o, json.set l (json.VInt bits n) o = assign n o)
  /\ (forall n o, proj (assign n o) = n).
Proof.
  intros Hf Hin Hname. unfold SimpleObservation.fields in Hin. simpl in Hin.
  apply intField_cases in Hf
    as [(-> & -> & -> & ->)|[(-> & -> & -> & ->)|[(-> & -> & -> & ->)|
        [(-> & -> & -> & ->)|[(-> & -> & -> & ->)|(-> & -> & -> & ->)]]]]];
    repeat (destruct Hin as [<-|Hin]; [first [discriminate Hname | by repeat split]|]);
    destruct Hin.
Qed.

Lemma other_integer_lens (name : string) (bits : Z) (proj : SimpleObservation.t -> Z)
    (assign : Z -> SimpleObservation.t -> SimpleObservation.t)
    (l : json.Lens SimpleObservation.t) :
  intField name = Some (bits, proj, assign) ->
  In l SimpleObservation.fields ->
  json.fieldName l <> name ->
  forall v o, proj (json.set l v o) = proj o.
Proof.
  intros Hf Hin Hname v o. unfold SimpleObservation.fields in Hin. simpl in Hin.
  apply intField_cases in Hf
    as [(-> & -> & -> & ->)|[(-> & -> & -> & ->)|[(-> & -> & -> & ->)|
        [(-> & -> & -> & ->)|[(-> & -> & -> & ->)|(-> & -> & -> & ->)]]]]];
    repeat (destruct Hin as [<-|Hin]; [first [by destruct Hname | by destruct v]|]);
    destruct Hin.
Qed.

Lemma decodeMembers_other_integer (name : string) (bits : Z)
    (proj : SimpleObservation.t -> Z)
    (assign : Z -> SimpleObservation.t -> SimpleObservation.t)
    ms (o o' : SimpleObservation.t) :
  intField name = Some (bits, proj, assign) ->
  Forall (fun m => fieldOfKey m.1 <> Some name) ms ->
  decodeMembers ms o = Some o' ->
  proj o' = proj o.
Proof.
  intros Hf Hms. revert o. induction Hms as [|[k j] ms Hk _ IH]; intros o H.
  - by inversion H.
  - rewrite decodeMembers_cons in H. unfold fieldOfKey in Hk. cbn [fst] in Hk.
    destruct (json.findField _ k) as [l|] eqn:E; [|by apply IH].
    destruct (json.store _ _ _ _ _) as [v|]; [|done].
    rewrite (IH _ H). apply (other_integer_lens name bits proj assign); [done| |].
    + by apply findField_In in E.
    + intros Hn. apply Hk. by rewrite <- Hn.
Qed.

(** X14: an integer field takes a number literal that [ParseInt] reads
    and that fits the width of the field: the member sets the field to
    that integer and the decode goes on with the members after it, so
    the object decodes whenever the members before and after do, and
    the field of the result is that integer unless a later member names
    it again.  A literal with a fraction or an exponent, or beyond the
    width, fails the whole decode, and so does a string, a boolean, an
    array or an object. *)
Theorem decode_integer_field (name : string) (bits : Z)
    (proj : SimpleObservation.t -> Z)
    (assign : Z -> SimpleObservation.t -> SimpleObservation.t)
    (ms1 ms2 : list (string * json.JSON)) (key : string) :
  intField name = Some (bits, proj, assign) ->
  fieldOfKey key = Some name ->
  (forall lit n,
      json.ParseInt lit = Some n -> json.fitsInt bits n = true ->
      decode (json.JObject (ms1 ++ (key, json.JNumber lit) :: ms2))
      = decode (json.JObject ms1) ≫= (fun o1 => decodeMembers ms2 (assign n o1))
      /\ decode (json.JObject (ms1 ++ [(key, json.JNumber lit)]))
         = assign n <$> decode (json.JObject ms1)
      /\ (forall o, proj (assign n o) = n)
      /\ (forall o,
            Forall (fun m => fieldOfKey m.1 <> Some name) ms2 ->
            decode (json.JObject (ms1 ++ (key, json.JNumber lit) :: ms2)) = Some o ->
            proj o = n))
  /\ (forall lit,
        match json.ParseInt lit with
        | Some n => json.fitsInt bits n = false
        | None => True
        end ->
        decode (json.JObject (ms1 ++ (key, json.JNumber lit) :: ms2)) = None)
  /\ (forall j,
        match j with json.JNumber _ | json.JNull => False | _ => True end ->
        decode (json.JObject (ms1 ++ (key, j) :: ms2)) = None).
Proof.
  intros Hf Hkey. apply fieldOfKey_Some in Hkey as (l & E & Hin & Hname).
  destruct (integer_lens name bits proj assign l Hf Hin Hname)
    as (Hq & Hget & Hset & Hproj).
  unfold decodeSimpleObservation, json.decodeStruct.
  split; [|split].
  - intros lit n Hlit Hfit.
    assert (Hone : forall ms o1,
               decodeMembers ((key, json.JNumber lit) :: ms) o1
               = decodeMembers ms (assign n o1)).
    { intros ms o1. rewrite decodeMembers_cons, E, Hget, Hq. cbn [json.store].
      by rewrite Hlit, Hfit, Hset. }
    split; [|split; [|split]].
    + rewrite decodeMembers_app.
      destruct (json.decodeMembers _ _ _ ms1 _) as [o1|]; [|done]. apply Hone.
    + rewrite decodeMembers_app.
      destruct (json.decodeMembers _ _ _ ms1 _) as [o1|]; [|done]. by rewrite Hone.
    + exact (Hproj n).
    + intros o Hms2 H. rewrite decodeMembers_app in H.
      destruct (json.decodeMembers _ _ _ ms1 _) as [o1|]; [|done].
      rewrite Hone in H.
      rewrite (decodeMembers_other_integer name bits proj assign _ _ _ Hf Hms2 H).
      apply Hproj.
  - intros lit Hbad. rewrite decodeMembers_app.
    destruct (json.decodeMembers _ _ _ ms1 _) as [o1|]; [|done].
    rewrite decodeMembers_cons, E, Hget, Hq. cbn [json.store].
    destruct (json.ParseInt lit) as [n|]; [by rewrite Hbad|done].
  - intros j Hj. rewrite decodeMembers_app.
    destruct (json.decodeMembers _ _ _ ms1 _) as [o1|]; [|done].
    rewrite decodeMembers_cons, E, Hget, Hq. by destruct j.
Qed.

End DecodeMore.

(** X12 at [tag_list], a key of the request bodies that the summary
    observation does not have. *)
Lemma decode_unknown_key_witness :
  (json.foldName "tag_list" ∉ (json.foldName <$> summaryKeys))
  /\ decodeSimpleObservation reference.ParseFloat reference.ParseTime
       (json.JObject [ ("id", json.JNumber "12");
                       ("tag_list", json.JArray [json.JBool true]) ])
     = decodeSimpleObservation reference.ParseFloat reference.ParseTime
         (json.JObject [ ("id", json.JNumber "12") ]).
Proof.
  assert (H : json.foldName "tag_list" ∉ (json.foldName <$> summaryKeys)).
  { apply (bool_decide_unpack _). vm_compute. exact I. }
  split; [exact H|].
  exact (proj1 (decode_unknown_key reference.ParseFloat reference.ParseTime
                  [ ("id", json.JNumber "12") ] [] "tag_list"
                  (json.JArray [json.JBool true])) H).
Defined.

(** X13 at [{"latitude": 37.5}]. *)
Lemma decode_coordinate_needs_string_witness :
  fieldOfKey "latitude" = Some (coordName true)
  /\ decodeSimpleObservation reference.ParseFloat reference.ParseTime (json.JObject [ ("latitude", json.JNumber "37.5") ]) = None.
Proof.
  assert (H : fieldOfKey "latitude" = Some (coordName true)) by (vm_compute; reflexivity).
  split; [exact H|].
  exact (decode_coordinate_needs_string reference.ParseFloat reference.ParseTime true [] [] "latitude" (json.JNumber "37.5")
           H eq_refl).
Defined.

(** X14 at [taxon_id], an [int32]: 2147483647 is taken, also after an
    id; 2147483648 and 1.0 are refused. *)
Lemma decode_integer_field_witness :
  let decode := decodeSimpleObservation reference.ParseFloat reference.ParseTime in
  intField "TaxonId"
  = Some (32, SimpleObservation.TaxonId, SimpleObservation.set_TaxonId)
  /\ fieldOfKey "taxon_id" = Some "TaxonId"
  /\ decode (json.JObject [ ("id", json.JNumber "12");
                            ("taxon_id", json.JNumber "2147483647") ])
     = Some (SimpleObservation.set_TaxonId 2147483647
               (SimpleObservation.set_Id 12 SimpleObservation.zero))
  /\ decode (json.JObject [ ("taxon_id", json.JNumber "2147483648") ]) = None
  /\ decode (json.JObject [ ("taxon_id", json.JNumber "1.0") ]) = None.
Proof.
  intros decode.
  assert (Hf : intField "TaxonId"
               = Some (32, SimpleObservation.TaxonId, SimpleObservation.set_TaxonId))
    by reflexivity.
  assert (Hk : fieldOfKey "taxon_id" = Some "TaxonId") by (vm_compute; reflexivity).
  split; [exact Hf|]. split; [exact Hk|]. split; [|split].
  - eapply eq_trans;
      [exact (proj1 (proj2 (proj1
                (decode_integer_field reference.ParseFloat reference.ParseTime
                   "TaxonId" 32 SimpleObservation.TaxonId SimpleObservation.set_TaxonId
                   [ ("id", json.JNumber "12") ] [] "taxon_id" Hf Hk)
                "2147483647" 2147483647 eq_refl eq_refl)))|reflexivity].
  - exact (proj1 (proj2
             (decode_integer_field reference.ParseFloat reference.ParseTime
                "TaxonId" 32 SimpleObservation.TaxonId SimpleObservation.set_TaxonId
                [] [] "taxon_id" Hf Hk)) "2147483648" eq_refl).
  - exact (proj1 (proj2
             (decode_integer_field reference.ParseFloat reference.ParseTime
                "TaxonId" 32 SimpleObservation.TaxonId SimpleObservation.set_TaxonId
                [] [] "taxon_id" Hf Hk)) "1.0" I).
Defined.

(** ** More on the bodies *)

Section BodiesMore.

Local Ltac tags :=
  repeat match goal with
         | |- context [json.keyOf ?f] =>
             let r := eval vm_compute in (json.keyOf f) in change (json.keyOf f) with r
         | |- context [json.Contains ?a ?b] =>
             let r := eval vm_compute in (json.Contains a b) in
             change (json.Contains a b) with r
         end.

(** The create options serialize unless a coordinate is NaN or infinite
    or the time is refused, and then to the eight members. *)
Lemma Marshal_create (o : AddObservationOpt.t) :
  json.Marshal (AddObservationOpt.fields o)
  = if unsupported (AddObservationOpt.Latitude o)
       || unsupported (AddObservationOpt.Longitude o)
    then None
    else json.JObject ∘ createMembers o
           <$> time.MarshalJSON (AddObservationOpt.ObservedOnString o).
Proof.
  unfold json.Marshal, AddObservationOpt.fields, createMembers, unsupported.
  cbn [json.encodeFields json.tag json.value String.eqb Ascii.eqb Bool.eqb json.encodeValue].
  tags. cbn [andb].
  destruct (time.MarshalJSON _);
    destruct (PrimFloat.is_nan (AddObservationOpt.Latitude o)
              || PrimFloat.is_infinity (AddObservationOpt.Latitude o));
    destruct (PrimFloat.is_nan (AddObservationOpt.Longitude o)
              || PrimFloat.is_infinity (AddObservationOpt.Longitude o));
    reflexivity.
Qed.

(** The update options serialize unless a coordinate that is not zero
    is NaN or infinite or the time is refused, and then to the members
    that are not zero. *)
Lemma Marshal_update (o : UpdateObservationOpt.t) :
  json.Marshal (UpdateObservationOpt.fields o)
  = if (negb (PrimFloat.eqb (UpdateObservationOpt.Latitude o) 0)
        && unsupported (UpdateObservationOpt.Latitude o))
       || (negb (PrimFloat.eqb (UpdateObservationOpt.Longitude o) 0)
           && unsupported (UpdateObservationOpt.Longitude o))
    then None
    else match UpdateObservationOpt.ObservedOnString o with
         | None => Some (json.JObject (updateMembers o None))
         | Some t =>
             (fun text => json.JObject (updateMembers o (Some text)))
               <$> time.MarshalJSON t
         end.
Proof.
  unfold json.Marshal, UpdateObservationOpt.fields, updateMembers, unsupported.
  cbn [json.encodeFields json.tag json.value String.eqb Ascii.eqb Bool.eqb
       json.encodeValue json.isEmptyValue].
  tags. cbn [andb].
  destruct (UpdateObservationOpt.ObservedOnString o) as [t|];
    [destruct (time.MarshalJSON t)|];
    destruct (String.eqb (UpdateObservationOpt.SpeciesGuess o) "");
    destruct (String.eqb (UpdateObservationOpt.Description o) "");
    destruct (PrimFloat.eqb (UpdateObservationOpt.Latitude o) 0);
    destruct (PrimFloat.eqb (UpdateObservationOpt.Longitude o) 0);
    destruct (UpdateObservationOpt.PositionalAccuracy o =? 0);
    destruct (String.eqb (UpdateObservationOpt.Tags o) "");
    destruct (String.eqb (UpdateObservationOpt.GeoPrivacy o) "");
    destruct (PrimFloat.is_nan (UpdateObservationOpt.Latitude o)
              || PrimFloat.is_infinity (UpdateObservationOpt.Latitude o));
    destruct (PrimFloat.is_nan (UpdateObservationOpt.Longitude o)
              || PrimFloat.is_infinity (UpdateObservationOpt.Longitude o));
    reflexivity.
Qed.

(** The encoder keeps a string of ASCII characters as it is. *)
Lemma toValidUTF8_ascii (s : string) : asciiOnly s = true -> json.toValidUTF8 s = s.
Proof.
  unfold asciiOnly, json.toValidUTF8. induction s as [|c s IH]; [done|].
  cbn [list_ascii_of_string forallb]. intros H. apply andb_true_iff in H as [Hc Hs].
  cbn [json.coerceFrom json.runeSize]. rewrite Hc. by rewrite (IH Hs).
Qed.

(** X6: what [AddObservation] builds before any call: with a NaN or
    infinite coordinate, or a time its [MarshalJSON] refuses (a year
    outside 0..9999, a zone a day or more from UTC), the marshalling
    error; otherwise, when the URL parses, a POST to the endpoint whose
    body has all eight members, the time in RFC 3339, the numbers as
    literals, the strings with every byte that is no valid UTF-8
    replaced by U+FFFD: an ASCII string is kept as it is, the string of
    the bytes [a], 255, [b] becomes [a], U+FFFD, [b]. *)
Theorem AddObservation_request_outcome (c : Client) (o : AddObservationOpt.t) :
  AddObservation_request c o
  = (if unsupported (AddObservationOpt.Latitude o)
        || unsupported (AddObservationOpt.Longitude o)
     then Fails EncodeError
     else
       match time.MarshalJSON (AddObservationOpt.ObservedOnString o) with
       | None => Fails EncodeError
       | Some observed =>
           if urlParses c (buildUrl c "/observations.json" [])
           then Returns {| Method := "POST";
                           URL := buildUrl c "/observations.json" [];
                           Body := Some (json.JObject (createMembers o observed)) |}
           else Fails RequestError
       end)
  /\ (forall s, asciiOnly s = true -> json.toValidUTF8 s = s)
  /\ json.toValidUTF8 (String "a" (String (ascii_of_N 255) "b"))
     = "a" +:+ json.replacement +:+ "b".
Proof.
  split; [|split; [exact toValidUTF8_ascii|reflexivity]].
  unfold AddObservation_request, NewRequest. rewrite Marshal_create.
  destruct (_ || _); [done|].
  destruct (time.MarshalJSON _); [|done]. simpl.
  by destruct (urlParses c _).
Qed.

(** X8: what [UpdateObservation] builds: a PUT to the path of the id
    whose body has the members that are not zero and nothing else, the
    strings with every byte that is no valid UTF-8 replaced by U+FFFD;
    a coordinate is an error only when it is NaN or infinite, which is
    never zero for the marshaller, and a time that is set only when its
    [MarshalJSON] refuses it (a year outside 0..9999, a zone a day or
    more from UTC). *)
Theorem UpdateObservation_request_outcome (c : Client) (o : UpdateObservationOpt.t) :
  UpdateObservation_request c o
  = let u := buildUrl c "/observations/%d.json" [UpdateObservationOpt.Id o] in
    let request (observed : option string) : Outcome Request :=
      if urlParses c u
      then Returns {| Method := "PUT"; URL := u;
                      Body := Some (json.JObject (updateMembers o observed)) |}
      else Fails RequestError in
    if (negb (PrimFloat.eqb (UpdateObservationOpt.Latitude o) 0)
        && unsupported (UpdateObservationOpt.Latitude o))
       || (negb (PrimFloat.eqb (UpdateObservationOpt.Longitude o) 0)
           && unsupported (UpdateObservationOpt.Longitude o))
    then Fails EncodeError
    else
      match UpdateObservationOpt.ObservedOnString o with
      | None => request None
      | Some t =>
          match time.MarshalJSON t with
          | Some text => request (Some text)
          | None => Fails EncodeError
          end
      end.
Proof.
  unfold UpdateObservation_request, NewRequest. rewrite Marshal_update.
  destruct (_ || _); [done|].
  destruct (UpdateObservationOpt.ObservedOnString o) as [t|];
    [destruct (time.MarshalJSON t); [|done]|]; simpl;
    by destruct (urlParses c _).
Qed.

(** Evaluate the field a literal key names. *)
Local Ltac found_fields :=
  repeat match goal with
         | |- context [json.findField SimpleObservation.fields ?k] =>
             let r := eval vm_compute in (json.findField SimpleObservation.fields k) in
             change (json.findField SimpleObservation.fields k) with r
         end.

Section Decoders.

Variable ParseFloat : string -> option float64.
Variable ParseTime : string -> option time.Time.

(** X7: with a NaN or infinite coordinate [AddObservation] returns the
    marshalling error for every client, whatever the server would
    answer: nothing is sent. *)
Theorem AddObservation_unsupported_value (c : Client) (o : AddObservationOpt.t) :
  unsupported (AddObservationOpt.Latitude o)
  || unsupported (AddObservationOpt.Longitude o) = true ->
  AddObservation ParseFloat ParseTime c o = Fails EncodeError.
Proof.
  intros H. unfold AddObservation, AddObservation_request.
  rewrite Marshal_create, H. reflexivity.
Qed.

(** X9: the body [AddObservation] sends never decodes as a summary
    observation: its latitude and longitude are JSON numbers, and the
    summary observation takes them only as strings. *)
Theorem create_body_is_no_summary (o : AddObservationOpt.t) (body : json.JSON) :
  json.Marshal (AddObservationOpt.fields o) = Some body ->
  decodeSimpleObservation ParseFloat ParseTime body = None.
Proof.
  rewrite Marshal_create. destruct (_ || _); [done|].
  destruct (time.MarshalJSON _) as [text|]; [|done].
  intros H. injection H as <-. reflexivity.
Qed.

(** X10: the body [UpdateObservation] sends decodes as a summary
    observation exactly when both coordinates are zero, and then gives
    back the positional accuracy, the observation time as its RFC 3339
    text, and the species guess and the description as the encoder
    wrote them, every byte that is no valid UTF-8 replaced by U+FFFD:
    leaving the zero values out loses nothing. *)
Theorem update_body_as_summary (o : UpdateObservationOpt.t) (body : json.JSON) :
  json.Marshal (UpdateObservationOpt.fields o) = Some body ->
  json.fitsInt 32 (UpdateObservationOpt.PositionalAccuracy o) = true ->
  decodeSimpleObservation ParseFloat ParseTime body
  = if PrimFloat.eqb (UpdateObservationOpt.Latitude o) 0
       && PrimFloat.eqb (UpdateObservationOpt.Longitude o) 0
    then Some (SimpleObservation.set_SpeciesGuess
                (json.toValidUTF8 (UpdateObservationOpt.SpeciesGuess o))
                (SimpleObservation.set_ObservedOnString
                   (from_option time.formatRFC3339Nano ""
                      (UpdateObservationOpt.ObservedOnString o))
                   (SimpleObservation.set_Description
                      (json.toValidUTF8 (UpdateObservationOpt.Description o))
                      (SimpleObservation.set_PositionalAccuracy
                         (UpdateObservationOpt.PositionalAccuracy o)
                         SimpleObservation.zero))))
    else None.
Proof.
  intros H Hfit. rewrite Marshal_update in H.
  destruct (_ || _); [done|].
  assert (HP : json.ParseInt (strconv.Itoa (UpdateObservationOpt.PositionalAccuracy o))
               = Some (UpdateObservationOpt.PositionalAccuracy o)).
  { apply ParseInt_Itoa. unfold json.fitsInt in Hfit.
    apply andb_true_iff in Hfit as [H1 H2]. apply Z.leb_le in H1. apply Z.ltb_lt in H2.
    change (2 ^ (32 - 1)) with 2147483648 in *. lia. }
  assert (Hb : exists obs,
             body = json.JObject (updateMembers o obs)
             /\ from_option time.formatRFC3339Nano "" (UpdateObservationOpt.ObservedOnString o)
                = default "" obs).
  { destruct (UpdateObservationOpt.ObservedOnString o) as [t|].
    - unfold time.MarshalJSON in H. destruct (_ || _) in H; [done|].
      injection H as <-. by eexists (Some _).
    - injection H as <-. by exists None. }
  destruct Hb as (obs & -> & ->). clear H.
  unfold decodeSimpleObservation, json.decodeStruct, updateMembers.
  rewrite !app_assoc.
  rewrite 2!decodeMembers_app_skip
    by (intros; apply decodeMembers_unknown_piece; vm_compute; reflexivity).
  destruct (String.eqb_spec (UpdateObservationOpt.SpeciesGuess o) "") as [->|_];
    destruct (String.eqb_spec (UpdateObservationOpt.Description o) "") as [->|_];
    destruct (Z.eqb_spec (UpdateObservationOpt.PositionalAccuracy o) 0) as [->|_];
    destruct obs as [text|];
    destruct (PrimFloat.eqb (UpdateObservationOpt.Latitude o) 0);
    destruct (PrimFloat.eqb (UpdateObservationOpt.Longitude o) 0);
    cbn -[json.ParseInt strconv.Itoa json.fitsInt json.formatFloat];
    found_fields;
    cbn -[json.ParseInt strconv.Itoa json.fitsInt json.formatFloat];
    rewrite ?HP, ?Hfit; reflexivity.
Qed.

End Decoders.

End BodiesMore.

(** X6 at a species guess in ASCII. *)
Lemma AddObservation_request_outcome_witness :
  asciiOnly "Quercus" = true /\ json.toValidUTF8 "Quercus" = "Quercus".
Proof.
  assert (H : asciiOnly "Quercus" = true) by reflexivity.
  split; [exact H|].
  exact (proj1 (proj2 (AddObservation_request_outcome
                         (answering {| StatusCode := 201; Payload := None |})
                         AddObservationOpt.zero)) "Quercus" H).
Defined.

(** X7 at a NaN latitude, with a server that would answer 201. *)
Lemma AddObservation_unsupported_value_witness :
  let o := {| AddObservationOpt.SpeciesGuess := "Quercus";
              AddObservationOpt.ObservedOnString := time.zero;
              AddObservationOpt.Description := "";
              AddObservationOpt.Latitude := PrimFloat.nan;
              AddObservationOpt.Longitude := 0%float;
              AddObservationOpt.PositionalAccuracy := 0;
              AddObservationOpt.Tags := "";
              AddObservationOpt.GeoPrivacy := "" |} in
  AddObservation reference.ParseFloat reference.ParseTime
    (answering {| StatusCode := 201;
                  Payload := Some (json.JArray [json.JObject []]) |}) o
  = Fails EncodeError.
Proof.
  intros o.
  exact (AddObservation_unsupported_value reference.ParseFloat reference.ParseTime
           (answering {| StatusCode := 201;
                         Payload := Some (json.JArray [json.JObject []]) |}) o eq_refl).
Defined.

(** X9 at the zero options. *)
Lemma create_body_is_no_summary_witness :
  exists body,
    json.Marshal (AddObservationOpt.fields AddObservationOpt.zero) = Some body
    /\ decodeSimpleObservation reference.ParseFloat reference.ParseTime body = None.
Proof.
  eexists. split; [vm_compute; reflexivity|].
  apply (create_body_is_no_summary reference.ParseFloat reference.ParseTime
           AddObservationOpt.zero).
  vm_compute; reflexivity.
Defined.

(** X10 at an update of the species and the accuracy. *)
Lemma update_body_as_summary_witness :
  let o := {| UpdateObservationOpt.Id := 7;
              UpdateObservationOpt.SpeciesGuess := "Quercus";
              UpdateObservationOpt.ObservedOnString := None;
              UpdateObservationOpt.Description := "";
              UpdateObservationOpt.Latitude := 0%float;
              UpdateObservationOpt.Longitude := 0%float;
              UpdateObservationOpt.PositionalAccuracy := 30;
              UpdateObservationOpt.Tags := "oak";
              UpdateObservationOpt.GeoPrivacy := "" |} in
  let body := json.JObject [ ("species_guess", json.JString "Quercus");
                             ("positional_accuracy", json.JNumber "30");
                             ("tag_list", json.JString "oak") ] in
  json.Marshal (UpdateObservationOpt.fields o) = Some body
  /\ decodeSimpleObservation reference.ParseFloat reference.ParseTime body
     = Some (SimpleObservation.set_SpeciesGuess "Quercus"
               (SimpleObservation.set_PositionalAccuracy 30 SimpleObservation.zero)).
Proof.
  intros o body.
  assert (H : json.Marshal (UpdateObservationOpt.fields o) = Some body)
    by (vm_compute; reflexivity).
  split; [exact H|].
  rewrite (update_body_as_summary reference.ParseFloat reference.ParseTime o body H eq_refl).
  reflexivity.
Defined.

(** ** Keys and the case of their letters, continued *)

Section KeysMore.

Variable ParseFloat : string -> option float64.
Variable ParseTime : string -> option time.Time.

(** X15: no two keys of the summary observation differ only by the case
    of their letters, so a member sets the same field whatever the case
    of its key: the decode does not change when a key is replaced by one
    that folds to the same name. *)
Theorem decode_key_case (ms1 ms2 : list (string * json.JSON)) (key key' : string)
    (j : json.JSON) :
  json.foldName key = json.foldName key' ->
  decodeSimpleObservation ParseFloat ParseTime (json.JObject (ms1 ++ (key, j) :: ms2))
  = decodeSimpleObservation ParseFloat ParseTime (json.JObject (ms1 ++ (key', j) :: ms2)).
Proof.
  intros H. unfold decodeSimpleObservation, json.decodeStruct.
  rewrite !decodeMembers_app.
  destruct (json.decodeMembers _ _ _ ms1 _) as [o1|]; [|done].
  by rewrite !decodeMembers_cons, (findField_folded key key' H).
Qed.

End KeysMore.

(** X15 at [TAXON_ID]. *)
Lemma decode_key_case_witness :
  json.foldName "TAXON_ID" = json.foldName "taxon_id"
  /\ decodeSimpleObservation reference.ParseFloat reference.ParseTime
       (json.JObject [ ("TAXON_ID", json.JNumber "47126") ])
     = Some (SimpleObservation.set_TaxonId 47126 SimpleObservation.zero).
Proof.
  assert (H : json.foldName "TAXON_ID" = json.foldName "taxon_id") by reflexivity.
  split; [exact H|].
  eapply eq_trans;
    [exact (decode_key_case reference.ParseFloat reference.ParseTime [] []
              "TAXON_ID" "taxon_id" (json.JNumber "47126") H)|reflexivity].
Defined.
